(** * pr-merge-announcer: [scripts/post_to_slack.py]

    A shallow embedding of the announcement script and the properties of
    its three stages (fetch, format, publish) and of its entry point.

    Conventions of the embedding.
    - A Python [str] is represented by its UTF-8 encoding, a [string] of
      bytes.  Concatenation is byte concatenation, and splitting on the
      ASCII character [/] cuts a UTF-8 text exactly where it cuts the
      sequence of code points, since no multi-byte sequence contains an
      ASCII byte.
    - Python integers are unbounded: [Z].
    - The record fetched from the hosting CLI is a Python [dict], here a
      [gmap string pyval].
    - Library calls whose result depends on the outside world
      ([subprocess.run], [os.environ], [json.loads], [json.dumps],
      [urllib.request]) are fields of a [World]; the script's own control
      flow runs in a small monad that records every observable action.
    - [main] is lines 83-106, from the namespace [parse_args()] returns;
      [script_main] is the whole of lines 74-106, with the parser of the
      library as a parameter.
    - Writing to the two streams is taken to succeed. *)

From Stdlib Require Import ZArith Ascii String List Lia DecimalString.
From Stdlib Require DecimalPos DecimalZ.
From stdpp Require Import base option list strings gmap.

Local Open Scope string_scope.

(** ** Python values and exceptions *)

(** The values a field of the fetched JSON object can hold.  [VOpaque]
    stands for a value of a remaining JSON type (float, array, nested
    object), kept only through its [str()] rendering: the script never
    looks inside such a value. *)
Inductive pyval : Type :=
  | VNone
  | VBool (b : bool)
  | VInt (z : Z)
  | VStr (s : string)
  | VOpaque (rendered : string).

(** The exception classes the script can meet.  [HTTPError] is a subclass
    of [URLError] in [urllib.error]; the handlers of [post_to_slack] test
    for it first. *)
Inductive exn : Type :=
  | KeyError (key : string)
  | IndexError
  | AttributeError
  | ValueError (msg : string)
  | JSONDecodeError
  | HTTPError (code : Z) (reason : string)
  | URLError (reason : string)
  | OtherError (class_name : string).  (* a class outside [URLError] *)

(** A computation that either returns or raises. *)
Inductive result (A : Type) : Type :=
  | Ok (a : A)
  | Err (e : exn).
Arguments Ok {A} a.
Arguments Err {A} e.

Definition is_ok {A} (r : result A) : bool :=
  match r with Ok _ => true | Err _ => false end.

Definition LF : string := String "010"%char EmptyString.

(** ** Builtins used by the script *)

(** [str(n)] for an integer. *)
Definition str_int (z : Z) : string := NilZero.string_of_int (Z.to_int z).

(** [str(v)], which is what an f-string replacement field [{v}] renders. *)
Definition py_str (v : pyval) : string :=
  match v with
  | VNone => "None"
  | VBool true => "True"
  | VBool false => "False"
  | VInt z => str_int z
  | VStr s => s
  | VOpaque r => r
  end.

(** [s.split(sep)] for a one-character separator: every occurrence cuts,
    empty pieces are kept, and the empty string gives one empty piece. *)
Fixpoint str_split (sep : ascii) (s : string) : list string :=
  match s with
  | EmptyString => [EmptyString]
  | String c rest =>
      if Ascii.eqb c sep then EmptyString :: str_split sep rest
      else match str_split sep rest with
           | piece :: pieces => String c piece :: pieces
           | [] => [String c EmptyString]
           end
  end.

(** [d[key]]: raises [KeyError] on a missing key. *)
Definition getitem (d : gmap string pyval) (key : string) : result pyval :=
  match d !! key with
  | Some v => Ok v
  | None => Err (KeyError key)
  end.

(** [l[i]]: raises [IndexError] out of range (non-negative index). *)
Definition index {A} (l : list A) (i : nat) : result A :=
  match l !! i with
  | Some x => Ok x
  | None => Err IndexError
  end.

(** [v.split("/")]: only [str] has the method. *)
Definition split_method (v : pyval) : result (list string) :=
  match v with
  | VStr s => Ok (str_split "/"%char s)
  | _ => Err AttributeError
  end.

Definition rbind {A B} (r : result A) (k : A → result B) : result B :=
  match r with
  | Ok a => k a
  | Err e => Err e
  end.

Notation "'let?' x ':=' r 'in' k" := (rbind r (fun x => k))
  (at level 10, x name, r at level 100, k at level 200).

(** ** Stage 2: [format_message] *)

(** Line 41: [pr["url"].split("/")[4]]. *)
Definition repo_name_of (pr : gmap string pyval) : result string :=
  let? url := getitem pr "url" in
  let? pieces := split_method url in
  index pieces 4.

(** Lines 42-48.  The subscripts are evaluated in the order the f-string
    meets them; adjacent literals are concatenated. *)
Definition format_message (pr : gmap string pyval) (summary : string)
  : result string :=
  let? repo_name := repo_name_of pr in
  let? number := getitem pr "number" in
  let? url := getitem pr "url" in
  let? title := getitem pr "title" in
  let? head := getitem pr "headRefName" in
  let? base := getitem pr "baseRefName" in
  Ok ("📂 *Repo*: " ++ repo_name ++ LF ++
      "✅ *PR #" ++ py_str number ++ " Merged* — <" ++ py_str url ++ "|"
        ++ py_str title ++ ">" ++ LF ++
      "🔀 *Branch*: `" ++ py_str head ++ "` → `" ++ py_str base ++ "`" ++ LF ++
      "📝 *Summary*:" ++ LF ++
      ">" ++ summary).

(** ** [str.strip()]

    Python strips the code points for which [str.isspace] holds: the
    ASCII ones (U+0009-000D, U+001C-001F, U+0020) and U+0085, U+00A0,
    U+1680, U+2000-200A, U+2028, U+2029, U+202F, U+205F, U+3000.  On the
    UTF-8 encoding these are one-, two- and three-byte sequences. *)

Definition byte_in (lo hi : nat) (c : ascii) : bool :=
  (lo <=? nat_of_ascii c)%nat && (nat_of_ascii c <=? hi)%nat.

Definition is_space1 (c : ascii) : bool :=
  byte_in 9 13 c || byte_in 28 32 c.

Definition is_space2 (c1 c2 : ascii) : bool :=
  byte_in 194 194 c1 && (byte_in 133 133 c2 || byte_in 160 160 c2).

Definition is_space3 (c1 c2 c3 : ascii) : bool :=
  (byte_in 225 225 c1 && byte_in 154 154 c2 && byte_in 128 128 c3)
  || (byte_in 226 226 c1 && byte_in 128 128 c2
      && (byte_in 128 138 c3 || byte_in 168 169 c3 || byte_in 175 175 c3))
  || (byte_in 226 226 c1 && byte_in 129 129 c2 && byte_in 159 159 c3)
  || (byte_in 227 227 c1 && byte_in 128 128 c2 && byte_in 128 128 c3).

(** Drops leading white space; [sp2] and [sp3] receive the bytes in the
    order they are met, so that the same function serves both ends. *)
Fixpoint lstrip_with (sp2 : ascii → ascii → bool)
    (sp3 : ascii → ascii → ascii → bool) (s : string) : string :=
  match s with
  | EmptyString => s
  | String c1 r1 =>
      if is_space1 c1 then lstrip_with sp2 sp3 r1
      else match r1 with
           | EmptyString => s
           | String c2 r2 =>
               if sp2 c1 c2 then lstrip_with sp2 sp3 r2
               else match r2 with
                    | EmptyString => s
                    | String c3 r3 =>
                        if sp3 c1 c2 c3 then lstrip_with sp2 sp3 r3 else s
                    end
           end
  end.

Definition lstrip : string → string := lstrip_with is_space2 is_space3.

Definition rstrip (s : string) : string :=
  String.rev
    (lstrip_with (fun a b => is_space2 b a) (fun a b c => is_space3 c b a)
       (String.rev s)).

Definition strip (s : string) : string := rstrip (lstrip s).

(** Python truthiness of an optional string ([None] and [""] are falsy). *)
Definition truthy (o : option string) : bool :=
  match o with
  | Some (String _ _) => true
  | _ => false
  end.

(** ** The outside world and the effect monad *)

Inductive stream : Type := Stdout | Stderr.

(** What [subprocess.run(..., capture_output=True, text=True)] returns. *)
Record CompletedProcess : Type := mkProc {
  returncode : Z;
  stdout : string;
  stderr : string
}.

(** The arguments given to [urllib.request.Request]. *)
Record Request : Type := mkRequest {
  full_url : string;
  data : string;
  headers : list (string * string);
  method : string
}.

(** Observable actions, in the order the script performs them. *)
Inductive event : Type :=
  | EvRun (cmd : list string)
  | EvPrint (file : stream) (text : string)
  | EvGetenv (name : string)
  | EvUrlopen (req : Request).

(** The library calls the script depends on.
    - [subprocess_run] may itself raise (the executable is missing).
    - [json_loads] raises on malformed text.
    - [json_dumps_utf8 d] is [json.dumps(d).encode("utf-8")].
    - [request_check url] is the exception, if any, that the [Request]
      constructor raises while parsing [url] (urllib raises [ValueError]
      for a text that has no scheme).
    - [urlopen] returns the status of the response or raises. *)
Record World : Type := mkWorld {
  subprocess_run : list string → result CompletedProcess;
  json_loads : string → result (gmap string pyval);
  json_dumps_utf8 : gmap string pyval → string;
  environ : gmap string string;
  request_check : string → option exn;
  urlopen : Request → result Z
}.

(** How a computation ends: a value, an exception on its way up, or
    [sys.exit(code)]. *)
Inductive outcome (A : Type) : Type :=
  | Done (a : A)
  | Raised (e : exn)
  | Exited (code : Z).
Arguments Done {A} a.
Arguments Raised {A} e.
Arguments Exited {A} code.

(** A computation is its outcome together with the actions it performed.
    The world is only read, so no state is threaded. *)
Definition M (A : Type) : Type := (outcome A * list event)%type.

Definition outcome_of {A} (m : M A) : outcome A := fst m.
Definition trace_of {A} (m : M A) : list event := snd m.

Definition ret {A} (a : A) : M A := (Done a, []).

(** [after t m] is [m] performed once the actions [t] have taken place. *)
Definition after {A} (t : list event) (m : M A) : M A :=
  (fst m, (t ++ snd m)%list).

Definition bind {A B} (m : M A) (k : A → M B) : M B :=
  match m with
  | (Done a, t) => after t (k a)
  | (Raised e, t) => (Raised e, t)
  | (Exited c, t) => (Exited c, t)
  end.

Notation "'let!' x ':=' m 'in' k" := (bind m (fun x => k))
  (at level 10, x name, m at level 100, k at level 200).
Notation "m ;; k" := (bind m (fun _ => k))
  (at level 100, k at level 200, right associativity).

Definition emit (ev : event) : M unit := (Done tt, [ev]).

Definition raise {A} (e : exn) : M A := (Raised e, []).

Definition sys_exit {A} (code : Z) : M A := (Exited code, []).

Definition lift {A} (r : result A) : M A :=
  match r with
  | Ok a => ret a
  | Err e => raise e
  end.

(** [try: body except ...]: [handler e] is the clause that matches [e],
    if one does; otherwise [e] keeps going up.  [sys.exit] is not an
    [Exception] the clauses of this script could match. *)
Definition try_except {A} (body : M A) (handler : exn → option (M A)) : M A :=
  match body with
  | (Raised e, t) =>
      match handler e with
      | Some h => after t h
      | None => (Raised e, t)
      end
  | finished => finished
  end.

Definition line (text : string) : string := text ++ LF.

(** [print(text, file=f)] writes the text and a line feed. *)
Definition print (f : stream) (text : string) : M unit :=
  emit (EvPrint f (line text)).

(** The exit status the interpreter reports for an entry point. *)
Definition exit_code {A} (o : outcome A) : Z :=
  match o with
  | Done _ => 0
  | Raised _ => 1
  | Exited c => c
  end.

(** ** Stage 1: [fetch_pr] *)

Definition fetch_cmd (pr_number : Z) (repo : option string) : list string :=
  (["gh"; "pr"; "view"; str_int pr_number;
    "--json"; "number,title,url,headRefName,baseRefName,body"]
   ++ (if truthy repo then ["--repo"; default "" repo] else []))%list.

Definition fetch_pr (w : World) (pr_number : Z) (repo : option string)
  : M (gmap string pyval) :=
  let cmd := fetch_cmd pr_number repo in
  let! result := (emit (EvRun cmd) ;; lift (subprocess_run w cmd)) in
  if negb (returncode result =? 0)%Z then
    print Stderr ("Error fetching PR #" ++ str_int pr_number ++ ": "
                  ++ strip (stderr result)) ;;
    sys_exit 1
  else
    lift (json_loads w (stdout result)).

(** ** Stage 3: [post_to_slack] *)

Definition json_headers : list (string * string) :=
  [("Content-Type", "application/json")].

Definition new_request (w : World) (url payload : string) : result Request :=
  match request_check w url with
  | Some e => Err e
  | None => Ok (mkRequest url payload json_headers "POST")
  end.

Definition post_to_slack (w : World) (webhook_url message : string) : M bool :=
  let payload := json_dumps_utf8 w {[ "text" := VStr message ]} in
  let! req := lift (new_request w webhook_url payload) in
  try_except
    (let! status := (emit (EvUrlopen req) ;; lift (urlopen w req)) in
     if (status =? 200)%Z then ret true
     else
       print Stderr ("Slack returned status " ++ str_int status) ;;
       ret false)
    (fun e =>
       match e with
       | HTTPError code reason =>
           Some (print Stderr ("Slack webhook error: " ++ str_int code
                               ++ " " ++ reason) ;;
                 ret false)
       | URLError reason =>
           Some (print Stderr ("Network error: " ++ reason) ;; ret false)
       | _ => None
       end).

(** ** Entry point: [main], once the command line is parsed *)

(** The namespace [parse_args()] returns. *)
Record Args : Type := mkArgs {
  pr_number : Z;
  summary : string;
  repo : option string;
  webhook_url : option string;
  dry_run : bool
}.

(** Line 94: [args.webhook_url or os.environ.get("SLACK_WEBHOOK_URL")].
    The environment is read only when the argument is falsy. *)
Definition resolve_webhook_url (w : World) (args : Args) : M (option string) :=
  if truthy (webhook_url args) then ret (webhook_url args)
  else emit (EvGetenv "SLACK_WEBHOOK_URL") ;;
       ret (environ w !! "SLACK_WEBHOOK_URL").

Definition no_webhook_msg : string :=
  "Error: No webhook URL provided. Use --webhook-url or set SLACK_WEBHOOK_URL env var.".

Definition main (w : World) (args : Args) : M unit :=
  let! pr := fetch_pr w (pr_number args) (repo args) in
  let! message := lift (format_message pr (summary args)) in
  if dry_run args then
    print Stdout ("=== DRY RUN — Message preview ===" ++ LF) ;;
    print Stdout message ;;
    print Stdout (LF ++ "=== End preview ===") ;;
    ret tt
  else
    let! resolved := resolve_webhook_url w args in
    if negb (truthy resolved) then
      print Stderr no_webhook_msg ;;
      sys_exit 1
    else
      let! posted := post_to_slack w (default "" resolved) message in
      if posted then
        let! number := lift (getitem pr "number") in
        print Stdout ("✅ Posted PR #" ++ py_str number
                      ++ " merge announcement to Slack!")
      else
        print Stderr "❌ Failed to post to Slack." ;;
        print Stdout (LF ++ "Message was:" ++ LF) ;;
        print Stdout message ;;
        sys_exit 1.

(** ** What a trace shows *)

(** The HTTP requests sent, in order. *)
Definition requests (t : list event) : list Request :=
  omap (fun ev => match ev with EvUrlopen r => Some r | _ => None end) t.

(** The environment variables read, in order. *)
Definition env_reads (t : list event) : list string :=
  omap (fun ev => match ev with EvGetenv n => Some n | _ => None end) t.

(** The texts written to a stream, in order. *)
Definition written (f : stream) (t : list event) : list string :=
  omap (fun ev =>
          match ev, f with
          | EvPrint Stdout s, Stdout | EvPrint Stderr s, Stderr => Some s
          | _, _ => None
          end) t.

(** The external commands started, in order. *)
Definition commands (t : list event) : list (list string) :=
  omap (fun ev => match ev with EvRun c => Some c | _ => None end) t.

(** ** The message template of the interface description

    Five lines joined by line feeds, transcribed from the description of
    the external interfaces, independently of [format_message]. *)
Definition section6_template
    (repo_name number url title headRefName baseRefName summary : string)
  : string :=
  String.concat LF
    [ "📂 *Repo*: " ++ repo_name;
      "✅ *PR #" ++ number ++ " Merged* — <" ++ url ++ "|" ++ title ++ ">";
      "🔀 *Branch*: `" ++ headRefName ++ "` → `" ++ baseRefName ++ "`";
      "📝 *Summary*:";
      ">" ++ summary ].

(** The invariant of the data model: the five fields the formatter reads
    are present and [url] is a text with at least five pieces between
    slashes. *)
Definition well_formed (pr : gmap string pyval) : Prop :=
  (∃ url, pr !! "url" = Some (VStr url)
          ∧ (5 ≤ length (str_split "/"%char url))%nat)
  ∧ is_Some (pr !! "number") ∧ is_Some (pr !! "title")
  ∧ is_Some (pr !! "headRefName") ∧ is_Some (pr !! "baseRefName").

(** No occurrence of the character in the text. *)
Fixpoint free_of (c : ascii) (s : string) : bool :=
  match s with
  | EmptyString => true
  | String a rest => negb (Ascii.eqb a c) && free_of c rest
  end.

(** The canonical address of a pull request on a hosting platform. *)
Definition canonical_url (host owner repo_ n : string) : string :=
  "https://" ++ host ++ "/" ++ owner ++ "/" ++ repo_ ++ "/pull/" ++ n.

(** ** Scenarios of the description, as concrete inputs *)

Definition scenario_pr : gmap string pyval :=
  <["number" := VInt 7]> (<["title" := VStr "Fix bug"]>
  (<["url" := VStr "https://github.com/acme/widgets/pull/7"]>
  (<["headRefName" := VStr "fix-bug"]> (<["baseRefName" := VStr "main"]>
  (<["body" := VStr ""]> ∅))))).

(** A world in which the CLI answers [gh], its output parses to
    [scenario_pr], the environment is [env] and the endpoint answers
    [http].  As in urllib, [Request] rejects a text without a colon, which
    has no scheme.  The serializer is a stand-in: no property depends on
    what [json.dumps] writes. *)
Definition scenario_world (gh : CompletedProcess) (env : gmap string string)
    (http : result Z) : World :=
  mkWorld (fun _ => Ok gh) (fun _ => Ok scenario_pr)
          (fun d => "{text: " ++ from_option py_str "" (d !! "text") ++ "}")
          env
          (fun url => if free_of ":"%char url
                      then Some (ValueError ("unknown url type: '" ++ url ++ "'"))
                      else None)
          (fun _ => http).

(** A world in which the fetch succeeds and returns [pr]: the CLI ends
    with status 0 and its output parses to [pr]. *)
Definition fetching_world (pr : gmap string pyval) (env : gmap string string)
    (http : result Z) : World :=
  mkWorld (fun _ => Ok (mkProc 0 "{...}" "")) (fun _ => Ok pr)
          (fun _ => "{...}") env (fun _ => None) (fun _ => http).

(** The request [post_to_slack] builds for a destination and a message. *)
Definition slack_request (w : World) (url message : string) : Request :=
  mkRequest url (json_dumps_utf8 w {[ "text" := VStr message ]})
    json_headers "POST".

(** The fetch stage succeeded and returned [pr]: the command ended with
    status 0 and its output parsed. *)
Definition fetched (w : World) (args : Args) (pr : gmap string pyval) : Prop :=
  ∃ proc,
    subprocess_run w (fetch_cmd (pr_number args) (repo args)) = Ok proc
    ∧ returncode proc = 0%Z
    ∧ json_loads w (stdout proc) = Ok pr.

(** The same invocation with another [--webhook-url]. *)
Definition with_webhook (args : Args) (u : option string) : Args :=
  mkArgs (pr_number args) (summary args) (repo args) u (dry_run args).

(** The same fetch side with another environment and another network. *)
Definition with_network (w : World) (env : gmap string string)
    (dumps : gmap string pyval → string) (check : string → option exn)
    (open : Request → result Z) : World :=
  mkWorld (subprocess_run w) (json_loads w) dumps env check open.

(** The resolution order of the webhook address, as the interface
    describes it: the explicit argument first, the environment variable
    second; an empty text counts as absent.  The list holds the reads of
    the environment the resolution needs. *)
Inductive resolves (w : World) (args : Args) : string → list event → Prop :=
  | from_argument (c : ascii) (u : string) :
      webhook_url args = Some (String c u) →
      resolves w args (String c u) []
  | from_environment (c : ascii) (u : string) :
      truthy (webhook_url args) = false →
      environ w !! "SLACK_WEBHOOK_URL" = Some (String c u) →
      resolves w args (String c u) [EvGetenv "SLACK_WEBHOOK_URL"].

(** The number of occurrences of a character in a text. *)
Fixpoint count_char (c : ascii) (s : string) : nat :=
  match s with
  | EmptyString => 0
  | String a rest => (if Ascii.eqb a c then 1 else 0) + count_char c rest
  end.

(** The keys [format_message] subscripts, in the order it meets them
    after [url]. *)
Definition keys_after_url : list string :=
  ["number"; "title"; "headRefName"; "baseRefName"].

Definition own_keys : list string := "url" :: keys_after_url.

(** The same invocation with [--dry-run] set or not. *)
Definition with_dry_run (args : Args) (b : bool) : Args :=
  mkArgs (pr_number args) (summary args) (repo args) (webhook_url args) b.

(** What the publisher logs when it turns an answer of the endpoint
    into false. *)
Inductive refusal : result Z → string → Prop :=
  | refusal_status (status : Z) :
      status ≠ 200%Z →
      refusal (Ok status) ("Slack returned status " ++ str_int status)
  | refusal_http (code : Z) (reason : string) :
      refusal (Err (HTTPError code reason))
        ("Slack webhook error: " ++ str_int code ++ " " ++ reason)
  | refusal_network (reason : string) :
      refusal (Err (URLError reason)) ("Network error: " ++ reason).

(** The exceptions no clause of the publisher matches. *)
Definition uncaught (e : exn) : Prop :=
  match e with
  | HTTPError _ _ | URLError _ => False
  | _ => True
  end.

(** The runs of the script, one rule for each way through [main]: where
    it stops, why, and what it has done by then. *)
Inductive runs (w : World) (args : Args) : M unit → Prop :=
  | runs_fetch_raised (e : exn) :
      subprocess_run w (fetch_cmd (pr_number args) (repo args)) = Err e →
      runs w args (Raised e, [EvRun (fetch_cmd (pr_number args) (repo args))])
  | runs_fetch_failed (proc : CompletedProcess) :
      subprocess_run w (fetch_cmd (pr_number args) (repo args)) = Ok proc →
      returncode proc ≠ 0%Z →
      runs w args
        (Exited 1,
         [EvRun (fetch_cmd (pr_number args) (repo args));
          EvPrint Stderr
            (line ("Error fetching PR #" ++ str_int (pr_number args) ++ ": "
                   ++ strip (stderr proc)))])
  | runs_parse_raised (proc : CompletedProcess) (e : exn) :
      subprocess_run w (fetch_cmd (pr_number args) (repo args)) = Ok proc →
      returncode proc = 0%Z →
      json_loads w (stdout proc) = Err e →
      runs w args (Raised e, [EvRun (fetch_cmd (pr_number args) (repo args))])
  | runs_format_raised (pr : gmap string pyval) (e : exn) :
      fetched w args pr →
      format_message pr (summary args) = Err e →
      runs w args (Raised e, [EvRun (fetch_cmd (pr_number args) (repo args))])
  | runs_preview (pr : gmap string pyval) (message : string) :
      fetched w args pr →
      format_message pr (summary args) = Ok message →
      dry_run args = true →
      runs w args
        (Done tt,
         [EvRun (fetch_cmd (pr_number args) (repo args));
          EvPrint Stdout (line ("=== DRY RUN — Message preview ===" ++ LF));
          EvPrint Stdout (line message);
          EvPrint Stdout (line (LF ++ "=== End preview ==="))])
  | runs_unconfigured (pr : gmap string pyval) (message : string) :
      fetched w args pr →
      format_message pr (summary args) = Ok message →
      dry_run args = false →
      truthy (webhook_url args) = false →
      truthy (environ w !! "SLACK_WEBHOOK_URL") = false →
      runs w args
        (Exited 1,
         [EvRun (fetch_cmd (pr_number args) (repo args));
          EvGetenv "SLACK_WEBHOOK_URL";
          EvPrint Stderr (line no_webhook_msg)])
  | runs_request_raised (pr : gmap string pyval) (message url : string)
      (tr : list event) (e : exn) :
      fetched w args pr →
      format_message pr (summary args) = Ok message →
      dry_run args = false →
      resolves w args url tr →
      request_check w url = Some e →
      runs w args
        (Raised e, EvRun (fetch_cmd (pr_number args) (repo args)) :: tr)
  | runs_transport_raised (pr : gmap string pyval) (message url : string)
      (tr : list event) (e : exn) :
      fetched w args pr →
      format_message pr (summary args) = Ok message →
      dry_run args = false →
      resolves w args url tr →
      request_check w url = None →
      urlopen w (slack_request w url message) = Err e →
      uncaught e →
      runs w args
        (Raised e,
         (EvRun (fetch_cmd (pr_number args) (repo args)) :: tr
          ++ [EvUrlopen (slack_request w url message)])%list)
  | runs_posted (pr : gmap string pyval) (message url : string)
      (tr : list event) (number : pyval) :
      fetched w args pr →
      format_message pr (summary args) = Ok message →
      dry_run args = false →
      resolves w args url tr →
      request_check w url = None →
      urlopen w (slack_request w url message) = Ok 200%Z →
      pr !! "number" = Some number →
      runs w args
        (Done tt,
         (EvRun (fetch_cmd (pr_number args) (repo args)) :: tr
          ++ [EvUrlopen (slack_request w url message);
              EvPrint Stdout
                (line ("✅ Posted PR #" ++ py_str number
                       ++ " merge announcement to Slack!"))])%list)
  | runs_refused (pr : gmap string pyval) (message url log : string)
      (tr : list event) :
      fetched w args pr →
      format_message pr (summary args) = Ok message →
      dry_run args = false →
      resolves w args url tr →
      request_check w url = None →
      refusal (urlopen w (slack_request w url message)) log →
      runs w args
        (Exited 1,
         (EvRun (fetch_cmd (pr_number args) (repo args)) :: tr
          ++ [EvUrlopen (slack_request w url message);
              EvPrint Stderr (line log);
              EvPrint Stderr (line "❌ Failed to post to Slack.");
              EvPrint Stdout (line (LF ++ "Message was:" ++ LF));
              EvPrint Stdout (line message)])%list).

(** The repository the fetch command is asked about: an empty
    [--repo] is no repository. *)
Definition effective_repo (repo : option string) : option string :=
  if truthy repo then repo else None.

(** Texts made of white space only, for the same reading of two- and
    three-byte sequences as [lstrip_with]. *)
Inductive blank_with (sp2 : ascii → ascii → bool)
    (sp3 : ascii → ascii → ascii → bool) : string → Prop :=
  | blank_end : blank_with sp2 sp3 ""
  | blank_one (c1 : ascii) (s : string) :
      is_space1 c1 = true →
      blank_with sp2 sp3 s → blank_with sp2 sp3 (String c1 s)
  | blank_two (c1 c2 : ascii) (s : string) :
      sp2 c1 c2 = true →
      blank_with sp2 sp3 s → blank_with sp2 sp3 (String c1 (String c2 s))
  | blank_three (c1 c2 c3 : ascii) (s : string) :
      sp3 c1 c2 c3 = true →
      blank_with sp2 sp3 s →
      blank_with sp2 sp3 (String c1 (String c2 (String c3 s))).

Definition blank : string → Prop := blank_with is_space2 is_space3.

(** The text begins with a white-space character. *)
Definition starts_blank (sp2 : ascii → ascii → bool)
    (sp3 : ascii → ascii → ascii → bool) (s : string) : bool :=
  match s with
  | String c1 (String c2 (String c3 _)) =>
      is_space1 c1 || sp2 c1 c2 || sp3 c1 c2 c3
  | String c1 (String c2 EmptyString) => is_space1 c1 || sp2 c1 c2
  | String c1 EmptyString => is_space1 c1
  | EmptyString => false
  end.

(** The text ends with a white-space character. *)
Definition ends_blank (s : string) : bool :=
  starts_blank (fun a b => is_space2 b a) (fun a b c => is_space3 c b a)
    (String.rev s).

(** ** The command line

    What [parser.parse_args()] (line 81) does with the command line.  It
    returns the namespace; or, on a usage error (a missing [--summary], a
    [pr_number] that is not an integer, an unknown option), writes the
    usage and the error message to the error stream and calls
    [sys.exit(2)]; or, on [-h] and [--help], writes the help to the
    output and calls [sys.exit(0)]. *)
Inductive parse_result : Type :=
  | Parsed (args : Args)
  | UsageError (usage message : string)
  | HelpShown (help : string).

(** Lines 75-81.  [argparse] stands for the parser of lines 75-80 applied
    to the command line: the library decides which of the three cases a
    command line falls in. *)
Definition parse_args (argparse : list string → parse_result)
    (argv : list string) : M Args :=
  match argparse argv with
  | Parsed args => ret args
  | UsageError usage message =>
      emit (EvPrint Stderr usage) ;;
      emit (EvPrint Stderr message) ;;
      sys_exit 2
  | HelpShown help =>
      emit (EvPrint Stdout help) ;;
      sys_exit 0
  end.

(** Lines 74-106: [main()] from the command line on. *)
Definition script_main (argparse : list string → parse_result) (w : World)
    (argv : list string) : M unit :=
  let! args := parse_args argparse argv in
  main w args.

(** A stand-in for the parser, for the command lines of the examples. *)
Definition scenario_parser (argv : list string) : parse_result :=
  match argv with
  | ["7"; "--summary"; text] => Parsed (mkArgs 7 text None None false)
  | ["7"; "--summary"; text; "--dry-run"] =>
      Parsed (mkArgs 7 text None None true)
  | ["7"; "--summary"; text; "--webhook-url"; url] =>
      Parsed (mkArgs 7 text None (Some url) false)
  | ["-h"] | ["--help"] =>
      HelpShown "usage: post_to_slack.py [-h] --summary SUMMARY pr_number"
  | _ =>
      UsageError "usage: post_to_slack.py [-h] --summary SUMMARY pr_number"
        "post_to_slack.py: error: the following arguments are required: --summary"
  end.

(** * Properties *)

(** ** Strings *)

Lemma append_assoc (a b c : string) : (a ++ b) ++ c = a ++ (b ++ c).
Proof.
  induction a as [|x a IH]; [reflexivity|].
  change (String x ((a ++ b) ++ c) = String x (a ++ (b ++ c))).
  now rewrite IH.
Qed.

(** [split] always returns at least one piece. *)
Lemma str_split_nonempty (sep : ascii) (s : string) : str_split sep s ≠ [].
Proof.
  destruct s as [|c rest]; simpl; [discriminate|].
  destruct (Ascii.eqb c sep); [discriminate|].
  destruct (str_split sep rest); discriminate.
Qed.

(** A piece free of the separator, followed by the separator, is the
    first piece of the result. *)
Lemma str_split_piece (sep : ascii) (piece rest : string) :
  free_of sep piece = true →
  str_split sep (piece ++ String sep rest) = piece :: str_split sep rest.
Proof.
  induction piece as [|c piece IH]; intros Hfree.
  - change (str_split sep (String sep rest) = "" :: str_split sep rest).
    simpl. now rewrite Ascii.eqb_refl.
  - simpl in Hfree. apply andb_prop in Hfree as [Hc Hp].
    change (str_split sep (String c (piece ++ String sep rest))
            = String c piece :: str_split sep rest).
    simpl. apply negb_true_iff in Hc. rewrite Hc, (IH Hp). reflexivity.
Qed.

(** The pieces of a canonical address. *)
Lemma str_split_canonical (host owner repo_ n : string) :
  free_of "/"%char host = true →
  free_of "/"%char owner = true →
  free_of "/"%char repo_ = true →
  ∃ tail,
    str_split "/"%char (canonical_url host owner repo_ n)
    = "https:" :: "" :: host :: owner :: repo_ :: tail.
Proof.
  intros Hh Ho Hr. unfold canonical_url.
  change ("https://" ++ host ++ "/" ++ owner ++ "/" ++ repo_ ++ "/pull/" ++ n)
    with ("https:" ++ String "/"
            ("" ++ String "/"
               (host ++ String "/"
                  (owner ++ String "/" (repo_ ++ String "/" ("pull/" ++ n)))))).
  rewrite !str_split_piece by (assumption || reflexivity).
  eauto.
Qed.

(** ** The formatter *)

(** C4.  For an address of the canonical shape
    [https://host/owner/repo/pull/N], the name the formatter extracts
    (the piece of index 4 of the split on [/]) is the [repo] segment. *)
Theorem repo_name_of_canonical
    (pr : gmap string pyval) (host owner repo_ n : string) :
  free_of "/"%char host = true →
  free_of "/"%char owner = true →
  free_of "/"%char repo_ = true →
  pr !! "url" = Some (VStr (canonical_url host owner repo_ n)) →
  str_split "/"%char (canonical_url host owner repo_ n) !! 4%nat = Some repo_
  ∧ repo_name_of pr = Ok repo_.
Proof.
  intros Hh Ho Hr Hurl.
  destruct (str_split_canonical host owner repo_ n Hh Ho Hr) as [tail Hsplit].
  unfold repo_name_of, getitem, split_method, index, rbind.
  rewrite Hurl, Hsplit. split; reflexivity.
Qed.

Lemma repo_name_of_canonical_witness :
  str_split "/"%char (canonical_url "github.com" "acme" "widgets" "7") !! 4%nat
  = Some "widgets"
  ∧ repo_name_of scenario_pr = Ok "widgets".
Proof.
  apply (repo_name_of_canonical scenario_pr "github.com" "acme" "widgets" "7");
    reflexivity.
Defined.

(** C1.  On a record that holds the five fields, whose [url] is a text
    with a piece of index 4, the formatter returns exactly the five-line
    template with the fields interpolated and the summary verbatim after
    the [>] of the last line. *)
Theorem format_message_is_template
    (pr : gmap string pyval) (summary_ : string)
    (number title_ head base : pyval) (url repo_name : string) :
  pr !! "number" = Some number →
  pr !! "title" = Some title_ →
  pr !! "url" = Some (VStr url) →
  pr !! "headRefName" = Some head →
  pr !! "baseRefName" = Some base →
  str_split "/"%char url !! 4%nat = Some repo_name →
  format_message pr summary_
  = Ok (section6_template repo_name (py_str number) url (py_str title_)
          (py_str head) (py_str base) summary_).
Proof.
  intros Hn Ht Hu Hh Hb Hrepo.
  unfold format_message, repo_name_of, getitem, split_method, index, rbind.
  rewrite Hu, Hrepo, Hn, Ht, Hh, Hb. f_equal.
  unfold section6_template. cbn [String.concat py_str].
  rewrite !append_assoc. reflexivity.
Qed.

Lemma format_message_is_template_witness :
  format_message scenario_pr "Fixed the widget crash"
  = Ok (section6_template "widgets" "7"
          "https://github.com/acme/widgets/pull/7" "Fix bug" "fix-bug" "main"
          "Fixed the widget crash").
Proof.
  apply (format_message_is_template scenario_pr "Fixed the widget crash"
           (VInt 7) (VStr "Fix bug") (VStr "fix-bug") (VStr "main"));
    reflexivity.
Defined.

(** C5, as stated, fails: a fetched record whose [url] has fewer than
    five pieces makes the subscript [4] raise, and a record without one
    of the keys makes the lookup raise. *)
Lemma format_message_can_raise :
  format_message (<["url" := VStr "https://github.com"]> scenario_pr) "Fixed"
  = Err IndexError
  ∧ format_message (delete "title" scenario_pr) "Fixed"
    = Err (KeyError "title").
Proof. split; vm_compute; reflexivity. Qed.

(** On a record that satisfies the invariant, formatting succeeds. *)
Lemma format_message_well_formed (pr : gmap string pyval) (summary_ : string) :
  well_formed pr → ∃ message, format_message pr summary_ = Ok message.
Proof.
  intros ((url & Hu & Hlen) & [n Hn] & [t Ht] & [h Hh] & [b Hb]).
  destruct (lookup_lt_is_Some_2 (str_split "/"%char url) 4) as [r Hr];
    [lia|].
  unfold format_message, repo_name_of, getitem, split_method, index, rbind.
  rewrite Hu, Hr, Hn, Ht, Hh, Hb. eauto.
Qed.

(** A successful formatting has found the five fields and five pieces. *)
Lemma format_message_inv (pr : gmap string pyval) (summary_ message : string) :
  format_message pr summary_ = Ok message → well_formed pr.
Proof.
  unfold well_formed, format_message, repo_name_of, getitem, split_method,
    index, rbind.
  destruct (pr !! "url") as [[| | |url|]|] eqn:Hu; try discriminate.
  destruct (str_split "/"%char url !! 4%nat) eqn:Hrepo; [|discriminate].
  apply lookup_lt_Some in Hrepo.
  destruct (pr !! "number"); [|discriminate].
  destruct (pr !! "title"); [|discriminate].
  destruct (pr !! "headRefName"); [|discriminate].
  destruct (pr !! "baseRefName"); [|discriminate].
  intros _. split; [exists url; split; [reflexivity|lia]|].
  repeat split; eauto.
Qed.

Lemma scenario_pr_well_formed : well_formed scenario_pr.
Proof.
  split.
  - exists "https://github.com/acme/widgets/pull/7".
    split; [reflexivity | vm_compute; lia].
  - repeat split; eexists; reflexivity.
Qed.

Lemma scenario_pr_fetched (gh_out gh_err : string) (env : gmap string string)
    (http : result Z) (args : Args) :
  fetched (scenario_world (mkProc 0 gh_out gh_err) env http) args scenario_pr.
Proof. exists (mkProc 0 gh_out gh_err). repeat split. Qed.

(** With five pieces in the address, the first field missing after
    [url] is the one the lookup fails on. *)
Lemma format_message_missing_key
    (pr : gmap string pyval) (summary_ url key : string)
    (present later : list string) :
  pr !! "url" = Some (VStr url) →
  (5 ≤ length (str_split "/"%char url))%nat →
  keys_after_url = (present ++ key :: later)%list →
  Forall (fun k => is_Some (pr !! k)) present →
  pr !! key = None →
  format_message pr summary_ = Err (KeyError key).
Proof.
  intros Hurl Hlen Hkeys Hpresent Hmissing.
  destruct (lookup_lt_is_Some_2 (str_split "/"%char url) 4) as [r Hr];
    [lia|].
  unfold format_message, repo_name_of, getitem, split_method, index, rbind.
  rewrite Hurl, Hr.
  unfold keys_after_url in Hkeys.
  destruct present as [|k1 [|k2 [|k3 [|k4 present]]]];
    inversion Hkeys; subst.
  all: try (repeat (apply Forall_cons in Hpresent as [[? ->] Hpresent]);
            rewrite Hmissing; reflexivity).
  destruct present; discriminate.
Qed.

(** C5, amended.  The formatter succeeds exactly on the records that
    satisfy the invariant of the data model, whatever the summary.  On
    any other record it raises: [KeyError] for [url] when [url] is
    missing, [AttributeError] when [url] is not a text, [IndexError]
    when [url] is a text with fewer than five pieces, and otherwise
    [KeyError] for the first field missing among [number], [title],
    [headRefName], [baseRefName]. *)
Theorem format_message_succeeds_iff
    (pr : gmap string pyval) (summary_ : string) :
  (is_ok (format_message pr summary_) = true ↔ well_formed pr)
  ∧ match pr !! "url" with
    | None => format_message pr summary_ = Err (KeyError "url")
    | Some (VStr url) =>
        ((length (str_split "/"%char url) < 5)%nat →
         format_message pr summary_ = Err IndexError)
        ∧ ((5 ≤ length (str_split "/"%char url))%nat →
           ∀ key present later,
             keys_after_url = (present ++ key :: later)%list →
             Forall (fun k => is_Some (pr !! k)) present →
             pr !! key = None →
             format_message pr summary_ = Err (KeyError key))
    | Some _ => format_message pr summary_ = Err AttributeError
    end.
Proof.
  split.
  - split.
    + destruct (format_message pr summary_) as [message|e] eqn:Hformat;
        [|discriminate].
      intros _. exact (format_message_inv pr summary_ message Hformat).
    + intros Hwf.
      destruct (format_message_well_formed pr summary_ Hwf) as [message ->].
      reflexivity.
  - destruct (pr !! "url") as [[| | |url|]|] eqn:Hurl;
      try (unfold format_message, repo_name_of, getitem, split_method, rbind;
           rewrite Hurl; reflexivity).
    split.
    + intros Hshort.
      unfold format_message, repo_name_of, getitem, split_method, index, rbind.
      rewrite Hurl, (lookup_ge_None_2 (str_split "/"%char url) 4) by lia.
      reflexivity.
    + intros Hlen key present later Hkeys Hpresent Hmissing.
      exact (format_message_missing_key pr summary_ url key present later
               Hurl Hlen Hkeys Hpresent Hmissing).
Qed.

Lemma format_message_succeeds_iff_witness :
  is_ok (format_message scenario_pr "Fixed the widget crash") = true.
Proof.
  apply (proj1 (format_message_succeeds_iff scenario_pr
                  "Fixed the widget crash")).
  apply scenario_pr_well_formed.
Defined.

(** ** The effect monad *)

(** Unfolds the monad operations, leaving the calls to the world and the
    texts as they are. *)
Ltac script :=
  cbn [bind after lift ret raise emit print sys_exit try_except
       fst snd app outcome_of trace_of negb].

(** Brings the actions of a finished computation into one list. *)
Ltac flatten :=
  script; unfold after; cbn [fst snd app]; rewrite ?app_nil_r.

Lemma after_nil {A} (m : M A) : after [] m = m.
Proof. now destruct m. Qed.

Lemma outcome_after {A} (t : list event) (m : M A) :
  outcome_of (after t m) = outcome_of m.
Proof. reflexivity. Qed.

Lemma trace_after {A} (t : list event) (m : M A) :
  trace_of (after t m) = (t ++ trace_of m)%list.
Proof. reflexivity. Qed.

Lemma requests_app (t1 t2 : list event) :
  requests (t1 ++ t2) = (requests t1 ++ requests t2)%list.
Proof. apply omap_app. Qed.

(** ** The publisher *)

Section Publisher.
Variable w : World.
Variables url message : string.

(** When the constructor accepts the address, the publisher is the
    guarded call alone. *)
Lemma post_to_slack_accepted :
  request_check w url = None →
  post_to_slack w url message
  = match urlopen w (slack_request w url message) with
    | Ok status =>
        if (status =? 200)%Z then (Done true, [EvUrlopen (slack_request w url message)])
        else (Done false,
              [EvUrlopen (slack_request w url message);
               EvPrint Stderr
                 (line ("Slack returned status " ++ str_int status))])
    | Err (HTTPError code reason) =>
        (Done false,
         [EvUrlopen (slack_request w url message);
          EvPrint Stderr
            (line ("Slack webhook error: " ++ str_int code ++ " "
                   ++ reason))])
    | Err (URLError reason) =>
        (Done false,
         [EvUrlopen (slack_request w url message);
        EvPrint Stderr (line ("Network error: " ++ reason))])
    | Err e => (Raised e, [EvUrlopen (slack_request w url message)])
    end.
Proof.
  intros Hcheck. unfold post_to_slack, new_request. rewrite Hcheck.
  script. fold (slack_request w url message).
  destruct (urlopen w (slack_request w url message)) as [status|e]; script.
  - destruct (status =? 200)%Z; reflexivity.
  - destruct e; reflexivity.
Qed.

Lemma post_to_slack_rejected (e : exn) :
  request_check w url = Some e →
  post_to_slack w url message = (Raised e, []).
Proof.
  intros Hcheck. unfold post_to_slack, new_request. now rewrite Hcheck.
Qed.

(** Every request the publisher sends goes to the address it was given,
    and it sends at most one. *)
Lemma post_to_slack_requests :
  requests (trace_of (post_to_slack w url message)) = [(slack_request w url message)]
  ∨ requests (trace_of (post_to_slack w url message)) = [].
Proof.
  destruct (request_check w url) as [e|] eqn:Hcheck.
  - right. now rewrite (post_to_slack_rejected e).
  - left. rewrite post_to_slack_accepted by assumption.
    destruct (urlopen w (slack_request w url message)) as [status|e].
    + destruct (status =? 200)%Z; reflexivity.
    + destruct e; reflexivity.
Qed.
End Publisher.

(** C2.  When the single POST gets a response, the publisher returns
    true exactly when the status is 200; for any other status it writes
    the status to the error stream and returns false, without raising.
    A status that urllib delivers as an [HTTPError] is likewise written
    to the error stream and gives false. *)
Theorem post_to_slack_true_iff_200 (w : World) (url message : string) :
  request_check w url = None →
  (∀ status,
     urlopen w (slack_request w url message) = Ok status →
     outcome_of (post_to_slack w url message)
     = Done (bool_decide (status = 200%Z))
     ∧ requests (trace_of (post_to_slack w url message))
       = [slack_request w url message]
     ∧ (status ≠ 200%Z →
        written Stderr (trace_of (post_to_slack w url message))
        = [line ("Slack returned status " ++ str_int status)]))
  ∧ (∀ code reason,
       urlopen w (slack_request w url message) = Err (HTTPError code reason) →
       outcome_of (post_to_slack w url message) = Done false
       ∧ requests (trace_of (post_to_slack w url message))
         = [slack_request w url message]
       ∧ written Stderr (trace_of (post_to_slack w url message))
         = [line ("Slack webhook error: " ++ str_int code ++ " " ++ reason)]).
Proof.
  intros Hcheck.
  rewrite (post_to_slack_accepted w url message Hcheck).
  split.
  - intros status ->.
    destruct (Z.eqb_spec status 200) as [->|Hne].
    + split; [reflexivity | split; [reflexivity | congruence]].
    + rewrite bool_decide_eq_false_2 by assumption.
      split; [reflexivity | split; [reflexivity | intros _; reflexivity]].
  - intros code reason ->. repeat split.
Qed.

Lemma post_to_slack_true_iff_200_witness :
  let w := scenario_world (mkProc 0 "" "") ∅ (Ok 201%Z) in
  outcome_of (post_to_slack w "https://hooks.example/T" "hello") = Done false
  ∧ requests (trace_of (post_to_slack w "https://hooks.example/T" "hello"))
    = [slack_request w "https://hooks.example/T" "hello"]
  ∧ written Stderr (trace_of (post_to_slack w "https://hooks.example/T" "hello"))
    = [line ("Slack returned status " ++ str_int 201)].
Proof.
  intros w.
  destruct (post_to_slack_true_iff_200 w "https://hooks.example/T" "hello")
    as [Hstatus _]; [reflexivity|].
  destruct (Hstatus 201%Z) as (Hreturned & Hsent & Hlogged); [reflexivity|].
  split; [exact Hreturned | split; [exact Hsent | apply Hlogged; lia]].
Defined.

(** C3, as stated, fails: the [Request] constructor runs before the
    [try] and raises [ValueError] on an address without a scheme; the
    exception leaves the publisher, which returns nothing and sends
    nothing.  So does an exception of the transport that is not a
    [URLError], such as a connection closed before any response. *)
Lemma post_to_slack_can_raise :
  let w := scenario_world (mkProc 0 "" "") ∅ (Ok 200%Z) in
  post_to_slack w "hooks.example/T" "hello"
  = (Raised (ValueError "unknown url type: 'hooks.example/T'"), [])
  ∧ outcome_of
      (post_to_slack
         (scenario_world (mkProc 0 "" "") ∅
            (Err (OtherError "http.client.RemoteDisconnected")))
         "https://hooks.example/T" "hello")
    = Raised (OtherError "http.client.RemoteDisconnected").
Proof. split; vm_compute; reflexivity. Qed.

(** C3, amended.  Once the constructor has accepted the address, the
    publisher sends exactly one POST, carrying the serialized
    [{"text": message}] and the JSON content type.  A response gives a
    boolean; an [HTTPError] or a [URLError] is logged to the error stream
    and gives false.  An exception of another class, from the constructor
    or from the transport, is not caught. *)
Theorem post_to_slack_outcomes (w : World) (url message : string) :
  let req := slack_request w url message in
  let r := post_to_slack w url message in
  match request_check w url with
  | Some e => r = (Raised e, [])
  | None =>
      requests (trace_of r) = [req]
      ∧ full_url req = url
      ∧ data req = json_dumps_utf8 w {[ "text" := VStr message ]}
      ∧ headers req = [("Content-Type", "application/json")]
      ∧ method req = "POST"
      ∧ match urlopen w req with
        | Ok status => outcome_of r = Done (bool_decide (status = 200%Z))
        | Err (HTTPError code reason) =>
            outcome_of r = Done false
            ∧ written Stderr (trace_of r)
              = [line ("Slack webhook error: " ++ str_int code ++ " "
                       ++ reason)]
        | Err (URLError reason) =>
            outcome_of r = Done false
            ∧ written Stderr (trace_of r)
              = [line ("Network error: " ++ reason)]
        | Err e => outcome_of r = Raised e
        end
  end.
Proof.
  intros req r. subst r.
  destruct (request_check w url) as [e|] eqn:Hcheck.
  - now apply post_to_slack_rejected.
  - rewrite (post_to_slack_accepted w url message Hcheck). fold req.
    destruct (urlopen w req) as [status|e].
    + destruct (Z.eqb_spec status 200) as [->|Hne].
      * repeat split; reflexivity.
      * rewrite bool_decide_eq_false_2 by assumption. repeat split; reflexivity.
    + destruct e; repeat split; reflexivity.
Qed.

(** ** The fetcher *)

Lemma fetch_pr_fetched (w : World) (args : Args) (pr : gmap string pyval) :
  fetched w args pr →
  fetch_pr w (pr_number args) (repo args)
  = (Done pr, [EvRun (fetch_cmd (pr_number args) (repo args))]).
Proof.
  intros (proc & Hrun & Hcode & Hjson). unfold fetch_pr.
  rewrite Hrun. script. rewrite Hcode, Hjson. reflexivity.
Qed.

Lemma fetch_pr_failed (w : World) (n : Z) (r : option string)
    (proc : CompletedProcess) :
  subprocess_run w (fetch_cmd n r) = Ok proc →
  returncode proc ≠ 0%Z →
  fetch_pr w n r
  = (Exited 1,
     [EvRun (fetch_cmd n r);
      EvPrint Stderr
        (line ("Error fetching PR #" ++ str_int n ++ ": "
               ++ strip (stderr proc)))]).
Proof.
  intros Hrun Hcode. unfold fetch_pr. rewrite Hrun. script.
  apply Z.eqb_neq in Hcode. rewrite Hcode. reflexivity.
Qed.

(** The fetcher touches neither the network nor the environment, and an
    exit it causes is never a success. *)
Lemma fetch_pr_quiet (w : World) (n : Z) (r : option string) :
  requests (trace_of (fetch_pr w n r)) = []
  ∧ env_reads (trace_of (fetch_pr w n r)) = []
  ∧ ∀ c, outcome_of (fetch_pr w n r) = Exited c → c = 1%Z.
Proof.
  unfold fetch_pr.
  destruct (subprocess_run w (fetch_cmd n r)) as [proc|e]; script.
  - destruct (returncode proc =? 0)%Z; script.
    + destruct (json_loads w (stdout proc)); repeat split; discriminate.
    + repeat split. intros c [= <-]. reflexivity.
  - repeat split. discriminate.
Qed.

(** C6.  When the fetch command ends with a non-zero status, the script
    runs it once, writes its error output (stripped) to the error stream
    and exits with status 1: nothing is returned by the fetcher, nothing
    is formatted, printed to the output or sent. *)
Theorem fetch_failure_is_terminal
    (w : World) (args : Args) (proc : CompletedProcess) :
  subprocess_run w (fetch_cmd (pr_number args) (repo args)) = Ok proc →
  returncode proc ≠ 0%Z →
  let report :=
    [EvRun (fetch_cmd (pr_number args) (repo args));
     EvPrint Stderr
       (line ("Error fetching PR #" ++ str_int (pr_number args) ++ ": "
              ++ strip (stderr proc)))] in
  fetch_pr w (pr_number args) (repo args) = (Exited 1, report)
  ∧ main w args = (Exited 1, report)
  ∧ exit_code (outcome_of (main w args)) ≠ 0%Z
  ∧ commands (trace_of (main w args))
    = [fetch_cmd (pr_number args) (repo args)]
  ∧ requests (trace_of (main w args)) = []
  ∧ written Stdout (trace_of (main w args)) = [].
Proof.
  intros Hrun Hcode report.
  pose proof (fetch_pr_failed w _ _ proc Hrun Hcode) as Hfetch.
  fold report in Hfetch.
  assert (Hmain : main w args = (Exited 1, report)).
  { unfold main. rewrite Hfetch. reflexivity. }
  rewrite Hmain. repeat split; try assumption; discriminate.
Qed.

Lemma fetch_failure_is_terminal_witness :
  let w := scenario_world (mkProc 1 "" ("no pull requests found" ++ LF)) ∅
             (Ok 200%Z) in
  let args := mkArgs 7 "Fixed the widget crash" None (Some "https://hooks.example/T")
                false in
  main w args
  = (Exited 1,
     [EvRun (fetch_cmd 7 None);
      EvPrint Stderr
        (line ("Error fetching PR #" ++ str_int 7 ++ ": "
               ++ strip ("no pull requests found" ++ LF)))]).
Proof.
  intros w args.
  apply (fetch_failure_is_terminal w args
           (mkProc 1 "" ("no pull requests found" ++ LF)));
    [reflexivity | simpl; lia].
Defined.

(** ** The entry point *)

(** Moves past the first two stages of [main] once they are known to
    succeed. *)
Ltac enter_main Hfetched Hformat :=
  unfold main;
  rewrite (fetch_pr_fetched _ _ _ Hfetched); script;
  rewrite Hformat; script.

(** What a dry run does, whatever the first two stages give. *)
Lemma main_dry_run (w : World) (args : Args) :
  dry_run args = true →
  main w args
  = let! pr := fetch_pr w (pr_number args) (repo args) in
    let! message := lift (format_message pr (summary args)) in
    print Stdout ("=== DRY RUN — Message preview ===" ++ LF) ;;
    print Stdout message ;;
    print Stdout (LF ++ "=== End preview ===") ;;
    ret tt.
Proof. intros Hdry. unfold main. now rewrite Hdry. Qed.

(** C9, as stated, fails: a fetch that succeeds can return a record
    the formatter does not accept, and the dry run then ends with the
    exception of the formatter, status 1 and no preview. *)
Lemma dry_run_can_raise :
  let pr := <["url" := VStr "https://github.com"]> scenario_pr in
  let w := fetching_world pr ∅ (Ok 200%Z) in
  let args := mkArgs 7 "Fixed the widget crash" None None true in
  fetched w args pr
  ∧ main w args = (Raised IndexError, [EvRun (fetch_cmd 7 None)])
  ∧ exit_code (outcome_of (main w args)) = 1%Z
  ∧ written Stdout (trace_of (main w args)) = [].
Proof.
  intros pr w args. split.
  - exists (mkProc 0 "{...}" ""). repeat split.
  - vm_compute. repeat split.
Qed.

(** C9, amended.  In a dry run the script sends no request and reads
    neither the [--webhook-url] argument nor the environment variable:
    its whole behaviour is the same under any other argument, environment
    and network.  When the fetch returns a record the formatter accepts,
    one that satisfies the invariant of the data model, it prints the
    formatted message between the two preview markers and ends with
    status 0. *)
Theorem dry_run_never_sends (w : World) (args : Args) :
  dry_run args = true →
  requests (trace_of (main w args)) = []
  ∧ env_reads (trace_of (main w args)) = []
  ∧ (∀ u env dumps check open,
       main (with_network w env dumps check open) (with_webhook args u)
       = main w args)
  ∧ (∀ pr, fetched w args pr → well_formed pr →
       ∃ message,
         format_message pr (summary args) = Ok message
         ∧ main w args
           = (Done tt,
              [EvRun (fetch_cmd (pr_number args) (repo args));
               EvPrint Stdout (line ("=== DRY RUN — Message preview ===" ++ LF));
               EvPrint Stdout (line message);
               EvPrint Stdout (line (LF ++ "=== End preview ==="))])
         ∧ exit_code (outcome_of (main w args)) = 0%Z).
Proof.
  intros Hdry. repeat apply conj.
  - rewrite (main_dry_run w args Hdry).
    destruct (fetch_pr_quiet w (pr_number args) (repo args)) as (Hq & _ & _).
    destruct (fetch_pr w (pr_number args) (repo args)) as [[pr|e|c] t];
      script; cbn [trace_of snd] in Hq; [|assumption..].
    destruct (format_message pr (summary args)); script;
      rewrite ?requests_app, Hq; reflexivity.
  - rewrite (main_dry_run w args Hdry).
    destruct (fetch_pr_quiet w (pr_number args) (repo args)) as (_ & He & _).
    destruct (fetch_pr w (pr_number args) (repo args)) as [[pr|e|c] t];
      script; cbn [trace_of snd] in He; [|assumption..].
    destruct (format_message pr (summary args)); script;
      unfold env_reads in *; rewrite ?omap_app, He; reflexivity.
  - intros u env dumps check open.
    rewrite (main_dry_run w args Hdry), main_dry_run by exact Hdry.
    reflexivity.
  - intros pr Hfetched Hwf.
    destruct (format_message_well_formed pr (summary args) Hwf)
      as [message Hformat].
    exists message. rewrite (main_dry_run w args Hdry).
    rewrite (fetch_pr_fetched _ _ _ Hfetched). script. rewrite Hformat.
    split; [reflexivity | split; reflexivity].
Qed.

Lemma dry_run_never_sends_witness :
  let w := scenario_world (mkProc 0 "{...}" "") ∅ (Ok 500%Z) in
  let args := mkArgs 7 "Fixed the widget crash" None None true in
  requests (trace_of (main w args)) = []
  ∧ env_reads (trace_of (main w args)) = []
  ∧ (∀ u env dumps check open,
       main (with_network w env dumps check open) (with_webhook args u)
       = main w args)
  ∧ (∀ pr, fetched w args pr → well_formed pr →
       ∃ message,
         format_message pr (summary args) = Ok message
         ∧ main w args
           = (Done tt,
              [EvRun (fetch_cmd (pr_number args) (repo args));
               EvPrint Stdout (line ("=== DRY RUN — Message preview ===" ++ LF));
               EvPrint Stdout (line message);
               EvPrint Stdout (line (LF ++ "=== End preview ==="))])
         ∧ exit_code (outcome_of (main w args)) = 0%Z).
Proof.
  intros w args. apply (dry_run_never_sends w args). reflexivity.
Defined.

Lemma resolve_webhook_url_resolves
    (w : World) (args : Args) (url : string) (tr : list event) :
  resolves w args url tr →
  resolve_webhook_url w args = (Done (Some url), tr)
  ∧ truthy (Some url) = true.
Proof.
  intros Hres. unfold resolve_webhook_url.
  inversion Hres as [c u Harg | c u Harg Henv]; subst.
  - rewrite Harg. split; reflexivity.
  - rewrite Harg, Henv. split; reflexivity.
Qed.

(** Without a usable address the script stops before the publisher. *)
Lemma main_unresolved (w : World) (args : Args) :
  dry_run args = false →
  truthy (webhook_url args) = false →
  truthy (environ w !! "SLACK_WEBHOOK_URL") = false →
  exit_code (outcome_of (main w args)) ≠ 0%Z
  ∧ requests (trace_of (main w args)) = []
  ∧ (∀ pr, fetched w args pr → well_formed pr →
       main w args
       = (Exited 1,
          [EvRun (fetch_cmd (pr_number args) (repo args));
           EvGetenv "SLACK_WEBHOOK_URL";
           EvPrint Stderr (line no_webhook_msg)])).
Proof.
  intros Hdry Harg Henv.
  assert (Hres : resolve_webhook_url w args
                 = (Done (environ w !! "SLACK_WEBHOOK_URL"),
                    [EvGetenv "SLACK_WEBHOOK_URL"])).
  { unfold resolve_webhook_url. now rewrite Harg. }
  split; [|split].
  - unfold main. rewrite Hdry, Hres.
    destruct (fetch_pr_quiet w (pr_number args) (repo args)) as (_ & _ & Hc).
    destruct (fetch_pr w (pr_number args) (repo args)) as [[pr|e|c] t];
      script; [|discriminate|].
    + destruct (format_message pr (summary args)); script;
        [rewrite Henv|]; discriminate.
    + rewrite (Hc c eq_refl). discriminate.
  - unfold main. rewrite Hdry, Hres.
    destruct (fetch_pr_quiet w (pr_number args) (repo args)) as (Hq & _ & _).
    destruct (fetch_pr w (pr_number args) (repo args)) as [[pr|e|c] t];
      script; cbn [trace_of snd] in Hq; [|assumption..].
    destruct (format_message pr (summary args)); script;
      [rewrite Henv; script|]; rewrite ?requests_app, Hq; reflexivity.
  - intros pr Hfetched Hwf.
    destruct (format_message_well_formed pr (summary args) Hwf)
      as [message Hformat].
    enter_main Hfetched Hformat. rewrite Hdry, Hres. script.
    rewrite Henv. reflexivity.
Qed.

(** With an address, the script is the publisher followed by its
    report. *)
Lemma main_resolved (w : World) (args : Args) (pr : gmap string pyval)
    (message url : string) (tr : list event) :
  dry_run args = false →
  fetched w args pr →
  format_message pr (summary args) = Ok message →
  resolves w args url tr →
  main w args
  = after (EvRun (fetch_cmd (pr_number args) (repo args)) :: tr)
      (let! posted := post_to_slack w url message in
       if posted then
         let! number := lift (getitem pr "number") in
         print Stdout ("✅ Posted PR #" ++ py_str number
                       ++ " merge announcement to Slack!")
       else
         print Stderr "❌ Failed to post to Slack." ;;
         print Stdout (LF ++ "Message was:" ++ LF) ;;
         print Stdout message ;;
         sys_exit 1).
Proof.
  intros Hdry Hfetched Hformat Hres.
  destruct (resolve_webhook_url_resolves w args url tr Hres) as [Hurl Htruthy].
  enter_main Hfetched Hformat. rewrite Hdry, Hurl. script.
  rewrite Htruthy. script. unfold after. cbn [fst snd].
  now rewrite app_nil_r.
Qed.

Lemma env_reads_app (t1 t2 : list event) :
  env_reads (t1 ++ t2) = (env_reads t1 ++ env_reads t2)%list.
Proof. apply omap_app. Qed.

(** The publisher does not read the environment. *)
Lemma post_to_slack_env (w : World) (url message : string) :
  env_reads (trace_of (post_to_slack w url message)) = [].
Proof.
  destruct (request_check w url) as [e|] eqn:Hcheck.
  - now rewrite (post_to_slack_rejected w url message e Hcheck).
  - rewrite (post_to_slack_accepted w url message Hcheck).
    destruct (urlopen w _) as [status|[]];
      try destruct (status =? 200)%Z; reflexivity.
Qed.

(** With an address, the actions of the script are the fetch, the
    resolution, the publisher, and a report made of prints. *)
Lemma main_resolved_shape (w : World) (args : Args) (pr : gmap string pyval)
    (message url : string) (tr : list event) :
  dry_run args = false →
  fetched w args pr →
  format_message pr (summary args) = Ok message →
  resolves w args url tr →
  ∃ report,
    trace_of (main w args)
    = ([EvRun (fetch_cmd (pr_number args) (repo args))] ++ tr
       ++ trace_of (post_to_slack w url message) ++ report)%list
    ∧ requests report = [] ∧ env_reads report = [].
Proof.
  intros Hdry Hfetched Hformat Hres.
  rewrite (main_resolved w args pr message url tr Hdry Hfetched Hformat Hres).
  destruct (post_to_slack w url message) as [[[|]|e|c] tp]; script.
  - destruct (getitem pr "number"); script.
    + eexists. split; [reflexivity|]. split; reflexivity.
    + exists []. rewrite !app_nil_r. repeat split.
  - eexists. split; [reflexivity|]. split; reflexivity.
  - exists []. rewrite !app_nil_r. repeat split.
  - exists []. rewrite !app_nil_r. repeat split.
Qed.

(** With an address, the only requests are those of the publisher and
    the only reads of the environment those of the resolution. *)
Lemma main_resolved_trace (w : World) (args : Args) (pr : gmap string pyval)
    (message url : string) (tr : list event) :
  dry_run args = false →
  fetched w args pr →
  format_message pr (summary args) = Ok message →
  resolves w args url tr →
  requests (trace_of (main w args))
  = requests (trace_of (post_to_slack w url message))
  ∧ env_reads (trace_of (main w args)) = env_reads tr.
Proof.
  intros Hdry Hfetched Hformat Hres.
  destruct (main_resolved_shape w args pr message url tr
              Hdry Hfetched Hformat Hres) as (report & -> & Hrq & Hre).
  rewrite !requests_app, !env_reads_app, Hrq, Hre, post_to_slack_env,
    !app_nil_r.
  inversion Hres; split; reflexivity.
Qed.

(** With an address, the script hands that address to the publisher:
    an accepted address receives the one request, for the formatted
    message, and an exception of the constructor for it ends the run. *)
Lemma main_sends_to (w : World) (args : Args) (pr : gmap string pyval)
    (message url : string) (tr : list event) :
  dry_run args = false →
  fetched w args pr →
  format_message pr (summary args) = Ok message →
  resolves w args url tr →
  (request_check w url = None →
   requests (trace_of (main w args)) = [slack_request w url message])
  ∧ (∀ e, request_check w url = Some e →
       outcome_of (main w args) = Raised e).
Proof.
  intros Hdry Hfetched Hformat Hres. split.
  - intros Hcheck.
    destruct (main_resolved_trace w args pr message url tr
                Hdry Hfetched Hformat Hres) as [-> _].
    rewrite (post_to_slack_accepted w url message Hcheck).
    destruct (urlopen w _) as [status|[]];
      try destruct (status =? 200)%Z; reflexivity.
  - intros e Hcheck.
    rewrite (main_resolved w args pr message url tr Hdry Hfetched Hformat Hres).
    rewrite (post_to_slack_rejected w url message e Hcheck). reflexivity.
Qed.

(** C7.  Outside a dry run, with no [--webhook-url] and no
    [SLACK_WEBHOOK_URL], the script ends with a non-zero status and sends
    no request; once the record is fetched and well formed, what it does
    after the fetch is to read the variable, write the configuration
    error to the error stream and exit with status 1.  The address is the
    argument when there is one, and the variable is then not read;
    otherwise it is the value of the variable: the one request of the
    run, for the formatted message, goes to that address when the
    constructor accepts it, and the exception of the constructor for
    that address ends the run when it does not. *)
Theorem missing_webhook_is_config_error (w : World) (args : Args) :
  dry_run args = false →
  (webhook_url args = None →
   environ w !! "SLACK_WEBHOOK_URL" = None →
   exit_code (outcome_of (main w args)) ≠ 0%Z
   ∧ requests (trace_of (main w args)) = []
   ∧ (∀ pr, fetched w args pr → well_formed pr →
        main w args
        = (Exited 1,
           [EvRun (fetch_cmd (pr_number args) (repo args));
            EvGetenv "SLACK_WEBHOOK_URL";
            EvPrint Stderr (line no_webhook_msg)])))
  ∧ (∀ pr u, fetched w args pr → well_formed pr →
       webhook_url args = Some u → u ≠ "" →
       Forall (fun r => full_url r = u) (requests (trace_of (main w args)))
       ∧ env_reads (trace_of (main w args)) = []
       ∧ (∀ message,
            format_message pr (summary args) = Ok message →
            (request_check w u = None →
             requests (trace_of (main w args)) = [slack_request w u message])
            ∧ (∀ e, request_check w u = Some e →
                 outcome_of (main w args) = Raised e)))
  ∧ (∀ pr v, fetched w args pr → well_formed pr →
       webhook_url args = None →
       environ w !! "SLACK_WEBHOOK_URL" = Some v → v ≠ "" →
       Forall (fun r => full_url r = v) (requests (trace_of (main w args)))
       ∧ env_reads (trace_of (main w args)) = ["SLACK_WEBHOOK_URL"]
       ∧ (∀ message,
            format_message pr (summary args) = Ok message →
            (request_check w v = None →
             requests (trace_of (main w args)) = [slack_request w v message])
            ∧ (∀ e, request_check w v = Some e →
                 outcome_of (main w args) = Raised e))).
Proof.
  intros Hdry. split; [|split].
  - intros Harg Henv. apply main_unresolved; [assumption|..].
    + now rewrite Harg.
    + now rewrite Henv.
  - intros pr [|c u] Hfetched Hwf Harg Hne; [congruence|].
    destruct (format_message_well_formed pr (summary args) Hwf)
      as [message Hformat].
    pose proof (from_argument w args c u Harg) as Hres.
    destruct (main_resolved_trace w args pr message (String c u) []
                Hdry Hfetched Hformat Hres) as [Hsent Hread].
    split; [|split].
    + rewrite Hsent.
      destruct (post_to_slack_requests w (String c u) message) as [-> | ->];
        repeat constructor.
    + rewrite Hread. reflexivity.
    + intros message' Hformat'.
      exact (main_sends_to w args pr message' (String c u) []
               Hdry Hfetched Hformat' Hres).
  - intros pr [|c v] Hfetched Hwf Harg Henv Hne; [congruence|].
    destruct (format_message_well_formed pr (summary args) Hwf)
      as [message Hformat].
    assert (Hfalsy : truthy (webhook_url args) = false) by now rewrite Harg.
    pose proof (from_environment w args c v Hfalsy Henv) as Hres.
    destruct (main_resolved_trace w args pr message (String c v) _
                Hdry Hfetched Hformat Hres) as [Hsent Hread].
    split; [|split].
    + rewrite Hsent.
      destruct (post_to_slack_requests w (String c v) message) as [-> | ->];
        repeat constructor.
    + rewrite Hread. reflexivity.
    + intros message' Hformat'.
      exact (main_sends_to w args pr message' (String c v) _
               Hdry Hfetched Hformat' Hres).
Qed.

Lemma missing_webhook_is_config_error_witness :
  let w := scenario_world (mkProc 0 "{...}" "") ∅ (Ok 200%Z) in
  let args := mkArgs 7 "Fixed the widget crash" None None false in
  main w args
  = (Exited 1,
     [EvRun (fetch_cmd 7 None);
      EvGetenv "SLACK_WEBHOOK_URL";
      EvPrint Stderr (line no_webhook_msg)]).
Proof.
  intros w args.
  destruct (missing_webhook_is_config_error w args) as [Hmissing _];
    [reflexivity|].
  destruct Hmissing as (_ & _ & Hmain); [reflexivity | reflexivity |].
  apply (Hmain scenario_pr);
    [apply scenario_pr_fetched | apply scenario_pr_well_formed].
Defined.

(** C8.  Once the record is fetched and formatted and the address
    resolved, the end of the script follows what the publisher returned.
    On true it prints one confirmation line with the number of the pull
    request and ends with status 0.  On false, whatever the reason, it
    writes the failure notice to the error stream, prints the whole
    message to the output and exits with status 1. *)
Theorem publish_outcome_reported
    (w : World) (args : Args) (pr : gmap string pyval)
    (message url : string) (tr : list event) (posted : bool) :
  dry_run args = false →
  fetched w args pr →
  format_message pr (summary args) = Ok message →
  resolves w args url tr →
  outcome_of (post_to_slack w url message) = Done posted →
  let before :=
    ([EvRun (fetch_cmd (pr_number args) (repo args))] ++ tr
     ++ trace_of (post_to_slack w url message))%list in
  if posted then
    ∃ number,
      pr !! "number" = Some number
      ∧ main w args
        = (Done tt,
           (before
            ++ [EvPrint Stdout
                  (line ("✅ Posted PR #" ++ py_str number
                         ++ " merge announcement to Slack!"))])%list)
      ∧ exit_code (outcome_of (main w args)) = 0%Z
  else
    main w args
    = (Exited 1,
       (before
        ++ [EvPrint Stderr (line "❌ Failed to post to Slack.");
            EvPrint Stdout (line (LF ++ "Message was:" ++ LF));
            EvPrint Stdout (line message)])%list)
    ∧ exit_code (outcome_of (main w args)) ≠ 0%Z.
Proof.
  intros Hdry Hfetched Hformat Hres Hposted before. subst before.
  rewrite (main_resolved w args pr message url tr Hdry Hfetched Hformat Hres).
  destruct (post_to_slack w url message) as [o tp].
  cbn [outcome_of trace_of fst snd] in *. subst o.
  destruct posted; script.
  - destruct (format_message_inv pr _ _ Hformat) as (_ & [number Hnumber] & _).
    exists number. unfold getitem. rewrite Hnumber. script.
    split; [reflexivity|]. split; [|reflexivity].
    unfold after. cbn [fst snd app]. now rewrite <- !app_assoc.
  - split; [|discriminate].
    unfold after. cbn [fst snd app]. now rewrite <- !app_assoc.
Qed.

Lemma publish_outcome_reported_witness :
  let w := scenario_world (mkProc 0 "{...}" "") ∅ (Ok 500%Z) in
  let args := mkArgs 7 "Fixed the widget crash" None
                (Some "https://hooks.example/T") false in
  let message :=
    section6_template "widgets" "7" "https://github.com/acme/widgets/pull/7"
      "Fix bug" "fix-bug" "main" "Fixed the widget crash" in
  main w args
  = (Exited 1,
     ([EvRun (fetch_cmd 7 None)] ++ []
      ++ trace_of (post_to_slack w "https://hooks.example/T" message)
      ++ [EvPrint Stderr (line "❌ Failed to post to Slack.");
          EvPrint Stdout (line (LF ++ "Message was:" ++ LF));
          EvPrint Stdout (line message)])%list)
  ∧ exit_code (outcome_of (main w args)) ≠ 0%Z.
Proof.
  intros w args message.
  apply (publish_outcome_reported w args scenario_pr message
           "https://hooks.example/T" [] false).
  - reflexivity.
  - apply scenario_pr_fetched.
  - vm_compute. reflexivity.
  - apply from_argument. reflexivity.
  - reflexivity.
Defined.

(** C10.  Outside a dry run, an empty [--webhook-url] is treated as no
    argument: the script behaves as it does without one, reads the
    variable and hands its value to the publisher, so that the one
    request of the run goes to that value when the constructor accepts
    it.  When the argument is absent or
    empty and the variable is set to the empty text, the script reports
    the configuration error and exits with a non-zero status without
    sending anything. *)
Theorem empty_webhook_counts_as_absent (w : World) (args : Args) :
  dry_run args = false →
  (webhook_url args = Some "" →
   main w args = main w (with_webhook args None)
   ∧ ∀ pr v, fetched w args pr → well_formed pr →
       environ w !! "SLACK_WEBHOOK_URL" = Some v → v ≠ "" →
       Forall (fun r => full_url r = v) (requests (trace_of (main w args)))
       ∧ env_reads (trace_of (main w args)) = ["SLACK_WEBHOOK_URL"]
       ∧ (∀ message,
            format_message pr (summary args) = Ok message →
            (request_check w v = None →
             requests (trace_of (main w args)) = [slack_request w v message])
            ∧ (∀ e, request_check w v = Some e →
                 outcome_of (main w args) = Raised e)))
  ∧ (truthy (webhook_url args) = false →
     environ w !! "SLACK_WEBHOOK_URL" = Some "" →
     exit_code (outcome_of (main w args)) ≠ 0%Z
     ∧ requests (trace_of (main w args)) = []
     ∧ (∀ pr, fetched w args pr → well_formed pr →
          main w args
          = (Exited 1,
             [EvRun (fetch_cmd (pr_number args) (repo args));
              EvGetenv "SLACK_WEBHOOK_URL";
              EvPrint Stderr (line no_webhook_msg)]))).
Proof.
  intros Hdry. split.
  - intros Harg. split.
    + unfold main, resolve_webhook_url, with_webhook.
      cbn [pr_number summary repo webhook_url dry_run].
      rewrite Harg. reflexivity.
    + intros pr [|c v] Hfetched Hwf Henv Hne; [congruence|].
      destruct (format_message_well_formed pr (summary args) Hwf)
        as [message Hformat].
      assert (Hfalsy : truthy (webhook_url args) = false) by now rewrite Harg.
      pose proof (from_environment w args c v Hfalsy Henv) as Hres.
      destruct (main_resolved_trace w args pr message (String c v) _
                  Hdry Hfetched Hformat Hres) as [Hsent Hread].
      split; [|split].
      * rewrite Hsent.
        destruct (post_to_slack_requests w (String c v) message) as [-> | ->];
          repeat constructor.
      * rewrite Hread. reflexivity.
      * intros message' Hformat'.
        exact (main_sends_to w args pr message' (String c v) _
                 Hdry Hfetched Hformat' Hres).
  - intros Harg Henv. apply main_unresolved; [assumption..|].
    now rewrite Henv.
Qed.

Lemma empty_webhook_counts_as_absent_witness :
  let w := scenario_world (mkProc 0 "{...}" "")
             {[ "SLACK_WEBHOOK_URL" := "" ]} (Ok 200%Z) in
  let args := mkArgs 7 "Fixed the widget crash" None (Some "") false in
  main w args
  = (Exited 1,
     [EvRun (fetch_cmd 7 None);
      EvGetenv "SLACK_WEBHOOK_URL";
      EvPrint Stderr (line no_webhook_msg)]).
Proof.
  intros w args.
  destruct (empty_webhook_counts_as_absent w args) as [_ Hempty];
    [reflexivity|].
  destruct Hempty as (_ & _ & Hmain); [reflexivity | reflexivity |].
  apply (Hmain scenario_pr);
    [apply scenario_pr_fetched | apply scenario_pr_well_formed].
Defined.

(** ** The end-to-end scenarios, evaluated *)

(** Scenario A: the preview of a dry run. *)
Example scenario_dry_run :
  written Stdout
    (trace_of (main (scenario_world (mkProc 0 "{...}" "") ∅ (Ok 200%Z))
                 (mkArgs 7 "Fixed the widget crash" None None true)))
  = [line ("=== DRY RUN — Message preview ===" ++ LF);
     line ("📂 *Repo*: widgets" ++ LF
           ++ "✅ *PR #7 Merged* — <https://github.com/acme/widgets/pull/7|Fix bug>"
           ++ LF ++ "🔀 *Branch*: `fix-bug` → `main`" ++ LF
           ++ "📝 *Summary*:" ++ LF ++ ">Fixed the widget crash");
     line (LF ++ "=== End preview ===")].
Proof. vm_compute. reflexivity. Qed.

(** Scenario B: the endpoint answers 200. *)
Example scenario_posted :
  let r := main (scenario_world (mkProc 0 "{...}" "") ∅ (Ok 200%Z))
             (mkArgs 7 "Fixed the widget crash" None
                (Some "https://hooks.example/T") false) in
  exit_code (outcome_of r) = 0%Z
  ∧ written Stdout (trace_of r)
    = [line "✅ Posted PR #7 merge announcement to Slack!"]
  ∧ written Stderr (trace_of r) = [].
Proof. vm_compute. repeat split. Qed.

(** Scenario C: the endpoint answers 500 through a response object. *)
Example scenario_rejected :
  let r := main (scenario_world (mkProc 0 "{...}" "") ∅ (Ok 500%Z))
             (mkArgs 7 "Fixed" None (Some "https://hooks.example/T") false) in
  exit_code (outcome_of r) = 1%Z
  ∧ written Stderr (trace_of r)
    = [line "Slack returned status 500"; line "❌ Failed to post to Slack."].
Proof. vm_compute. repeat split. Qed.

(** The error output of the fetch command loses its final line feed. *)
Example strip_error_output :
  strip ("no pull requests found" ++ LF) = "no pull requests found".
Proof. vm_compute. reflexivity. Qed.

(** * Further properties of the four functions *)

(** ** [str.split] and the address *)

Lemma free_of_app (c : ascii) (a b : string) :
  free_of c (a ++ b) = free_of c a && free_of c b.
Proof.
  induction a as [|x a IH]; [reflexivity|].
  change (free_of c (String x (a ++ b))
          = free_of c (String x a) && free_of c b).
  simpl. rewrite IH. now rewrite andb_assoc.
Qed.

(** A text free of the separator is its own single piece. *)
Lemma str_split_free (sep : ascii) (s : string) :
  free_of sep s = true → str_split sep s = [s].
Proof.
  induction s as [|c s IH]; [reflexivity|]. simpl.
  intros [Hc Hs]%andb_prop. apply negb_true_iff in Hc.
  now rewrite Hc, (IH Hs).
Qed.

(** There is one more piece than there are separators. *)
Lemma length_str_split (sep : ascii) (s : string) :
  length (str_split sep s) = S (count_char sep s).
Proof.
  induction s as [|c s IH]; [reflexivity|]. simpl.
  destruct (Ascii.eqb c sep); simpl.
  - now rewrite IH.
  - destruct (str_split sep s) as [|piece pieces] eqn:Hsplit.
    + now apply str_split_nonempty in Hsplit.
    + exact IH.
Qed.

(** The pieces of a text free of a character are free of it. *)
Lemma str_split_free_pieces (c sep : ascii) (s : string) :
  free_of c s = true →
  Forall (fun piece => free_of c piece = true) (str_split sep s).
Proof.
  induction s as [|a s IH]; simpl.
  - repeat constructor.
  - intros [Ha Hs]%andb_prop. specialize (IH Hs).
    destruct (Ascii.eqb a sep).
    + constructor; [reflexivity | exact IH].
    + destruct (str_split sep s) as [|piece pieces].
      * repeat constructor. simpl. now rewrite Ha.
      * inversion IH as [|? ? Hpiece Hpieces]; subst.
        constructor; [|assumption]. simpl. now rewrite Ha, Hpiece.
Qed.

(** X1.  Extracting the repository name succeeds exactly when [url] is a
    text with at least four slashes. *)
Theorem repo_name_of_needs_four_slashes (pr : gmap string pyval) :
  is_ok (repo_name_of pr) = true
  ↔ ∃ url, pr !! "url" = Some (VStr url)
           ∧ (4 ≤ count_char "/"%char url)%nat.
Proof.
  unfold repo_name_of, getitem, split_method, index, rbind. split.
  - destruct (pr !! "url") as [[| | |url|]|]; try discriminate.
    destruct (str_split "/"%char url !! 4%nat) eqn:Hpiece; [|discriminate].
    intros _. exists url. split; [reflexivity|].
    apply lookup_lt_Some in Hpiece. rewrite length_str_split in Hpiece. lia.
  - intros (url & -> & Hcount).
    destruct (lookup_lt_is_Some_2 (str_split "/"%char url) 4) as [r ->];
      [rewrite length_str_split; lia | reflexivity].
Qed.

(** X2.  The name extracted is the text between the fourth slash and the
    next one, or the end of the address, whatever the first four pieces
    are: a scheme is not required and what follows is not looked at. *)
Theorem repo_name_of_fifth_piece
    (pr : gmap string pyval) (a b c d e tail : string) :
  free_of "/"%char a = true → free_of "/"%char b = true →
  free_of "/"%char c = true → free_of "/"%char d = true →
  free_of "/"%char e = true →
  tail = "" ∨ (∃ rest, tail = String "/"%char rest) →
  pr !! "url"
  = Some (VStr (a ++ "/" ++ b ++ "/" ++ c ++ "/" ++ d ++ "/" ++ e ++ tail)) →
  repo_name_of pr = Ok e.
Proof.
  intros Ha Hb Hc Hd He Htail Hurl.
  unfold repo_name_of, getitem, split_method, index, rbind. rewrite Hurl.
  change (a ++ "/" ++ b ++ "/" ++ c ++ "/" ++ d ++ "/" ++ e ++ tail)
    with (a ++ String "/" (b ++ String "/" (c ++ String "/"
            (d ++ String "/" (e ++ tail))))).
  rewrite !str_split_piece by assumption.
  destruct Htail as [-> | [rest ->]].
  - assert (He' : free_of "/"%char (e ++ "") = true)
      by (rewrite free_of_app, He; reflexivity).
    rewrite (str_split_free _ _ He'). simpl. f_equal.
    clear. induction e as [|x e IH]; [reflexivity|].
    change (String x (e ++ "") = String x e). now rewrite IH.
  - rewrite str_split_piece by assumption. reflexivity.
Qed.

Lemma repo_name_of_fifth_piece_witness :
  repo_name_of {[ "url" := VStr "github.com/acme/widgets/pull/7" ]} = Ok "7".
Proof.
  apply (repo_name_of_fifth_piece _ "github.com" "acme" "widgets" "pull" "7" "");
    try reflexivity.
  left. reflexivity.
Defined.

(** ** Errors and inputs of [format_message] *)

(** X3.  The address is examined before any other field: whatever else
    the record holds or lacks, a missing [url] raises [KeyError], a [url]
    that is not a text raises [AttributeError], and a text with fewer
    than four slashes raises [IndexError]. *)
Theorem format_message_url_errors
    (pr : gmap string pyval) (summary_ : string) :
  match pr !! "url" with
  | None => format_message pr summary_ = Err (KeyError "url")
  | Some (VStr url) =>
      (count_char "/"%char url < 4)%nat →
      format_message pr summary_ = Err IndexError
  | Some _ => format_message pr summary_ = Err AttributeError
  end.
Proof.
  unfold format_message, repo_name_of, getitem, split_method, index, rbind.
  destruct (pr !! "url") as [[| | |url|]|]; try reflexivity.
  intros Hcount.
  rewrite (lookup_ge_None_2 (str_split "/"%char url) 4);
    [reflexivity | rewrite length_str_split; lia].
Qed.

(** X4.  With a usable address, the fields are read in the order
    [number], [title], [headRefName], [baseRefName], and the first one
    missing is the one the [KeyError] names. *)
Theorem format_message_first_missing_key
    (pr : gmap string pyval) (summary_ key : string)
    (present later : list string) :
  is_ok (repo_name_of pr) = true →
  keys_after_url = (present ++ key :: later)%list →
  Forall (fun k => is_Some (pr !! k)) present →
  pr !! key = None →
  format_message pr summary_ = Err (KeyError key).
Proof.
  intros Hrepo Hkeys Hpresent Hmissing.
  unfold format_message.
  destruct (repo_name_of pr) as [repo_name|] eqn:Hname; [|discriminate].
  assert (Hurl : is_Some (pr !! "url")).
  { unfold repo_name_of, getitem, rbind in Hname.
    destruct (pr !! "url"); [eauto | discriminate]. }
  destruct Hurl as [url Hurl].
  unfold getitem, rbind. rewrite Hurl.
  unfold keys_after_url in Hkeys.
  destruct present as [|k1 [|k2 [|k3 [|k4 present]]]];
    inversion Hkeys; subst.
  all: try (repeat (apply Forall_cons in Hpresent as [[? ->] Hpresent]);
            rewrite Hmissing; reflexivity).
  destruct present; discriminate.
Qed.

Lemma format_message_first_missing_key_witness :
  format_message (delete "headRefName" (delete "baseRefName" scenario_pr))
    "Fixed"
  = Err (KeyError "headRefName").
Proof.
  apply (format_message_first_missing_key _ "Fixed" "headRefName"
           ["number"; "title"] ["baseRefName"]).
  - reflexivity.
  - reflexivity.
  - repeat constructor; eexists; reflexivity.
  - reflexivity.
Defined.

(** A key the formatter does not subscript. *)
Lemma lookup_own_key_insert
    (pr : gmap string pyval) (key k : string) (v : pyval) :
  key ∉ own_keys → k ∈ own_keys → <[key := v]> pr !! k = pr !! k.
Proof.
  intros Hkey Hk. apply lookup_insert_ne. intros ->. contradiction.
Qed.

Lemma lookup_own_key_delete (pr : gmap string pyval) (key k : string) :
  key ∉ own_keys → k ∈ own_keys → delete key pr !! k = pr !! k.
Proof.
  intros Hkey Hk. apply lookup_delete_ne. intros ->. contradiction.
Qed.

(** X5.  The formatter depends on five fields only: adding, changing or
    removing any other key of the record, such as [body], changes
    neither the message nor the error. *)
Theorem format_message_ignores_other_keys
    (pr : gmap string pyval) (summary_ key : string) (v : pyval) :
  key ∉ own_keys →
  format_message (<[key := v]> pr) summary_ = format_message pr summary_
  ∧ format_message (delete key pr) summary_ = format_message pr summary_.
Proof.
  intros Hkey.
  unfold format_message, repo_name_of, getitem.
  split.
  - rewrite !(lookup_own_key_insert pr key _ v Hkey)
      by (unfold own_keys, keys_after_url; set_solver).
    reflexivity.
  - rewrite !(lookup_own_key_delete pr key _ Hkey)
      by (unfold own_keys, keys_after_url; set_solver).
    reflexivity.
Qed.

Lemma format_message_ignores_other_keys_witness :
  format_message (<["body" := VStr "## Changes"]> scenario_pr) "Fixed"
  = format_message scenario_pr "Fixed"
  ∧ format_message (delete "body" scenario_pr) "Fixed"
    = format_message scenario_pr "Fixed".
Proof.
  apply (format_message_ignores_other_keys scenario_pr "Fixed" "body").
  apply (bool_decide_unpack _). vm_compute. exact I.
Defined.

(** ** The shape of the message *)

(** The message for a record whose fields are known. *)
Lemma format_message_fields
    (pr : gmap string pyval) (summary_ : string)
    (number title_ head base : pyval) (url repo_name : string) :
  pr !! "number" = Some number →
  pr !! "title" = Some title_ →
  pr !! "url" = Some (VStr url) →
  pr !! "headRefName" = Some head →
  pr !! "baseRefName" = Some base →
  str_split "/"%char url !! 4%nat = Some repo_name →
  format_message pr summary_
  = Ok (("📂 *Repo*: " ++ repo_name) ++ LF
        ++ ("✅ *PR #" ++ py_str number ++ " Merged* — <" ++ url ++ "|"
            ++ py_str title_ ++ ">") ++ LF
        ++ ("🔀 *Branch*: `" ++ py_str head ++ "` → `" ++ py_str base ++ "`")
        ++ LF ++ "📝 *Summary*:" ++ LF ++ ">" ++ summary_).
Proof.
  intros Hn Ht Hu Hh Hb Hrepo.
  unfold format_message, repo_name_of, getitem, split_method, index, rbind.
  rewrite Hu, Hrepo, Hn, Ht, Hh, Hb. f_equal.
  cbn [py_str]. rewrite !append_assoc. reflexivity.
Qed.

Lemma Ok_inj {A} (a b : A) : Ok a = Ok b → a = b.
Proof. now intros [= ->]. Qed.

(** X6.  The summary is appended as it is: a message is a header that
    does not depend on the summary, followed by the summary text, so two
    different summaries never give the same message. *)
Theorem format_message_appends_summary
    (pr : gmap string pyval) (summary_ message : string) :
  format_message pr summary_ = Ok message →
  ∃ header,
    message = header ++ summary_
    ∧ (∀ other, format_message pr other = Ok (header ++ other))
    ∧ (∀ other, format_message pr other = Ok message → other = summary_).
Proof.
  intros Hformat.
  destruct (format_message_inv pr summary_ message Hformat)
    as ((url & Hu & Hlen) & [n Hn] & [t Ht] & [h Hh] & [b Hb]).
  destruct (lookup_lt_is_Some_2 (str_split "/"%char url) 4) as [r Hr];
    [lia|].
  set (header :=
         ("📂 *Repo*: " ++ r) ++ LF
         ++ ("✅ *PR #" ++ py_str n ++ " Merged* — <" ++ url ++ "|"
             ++ py_str t ++ ">") ++ LF
         ++ ("🔀 *Branch*: `" ++ py_str h ++ "` → `" ++ py_str b ++ "`")
         ++ LF ++ "📝 *Summary*:" ++ LF ++ ">").
  assert (Hall : ∀ other, format_message pr other = Ok (header ++ other)).
  { intros other.
    rewrite (format_message_fields pr other n t h b url r Hn Ht Hu Hh Hb Hr).
    f_equal. subst header. rewrite !append_assoc. reflexivity. }
  assert (Hmessage : message = header ++ summary_).
  { apply Ok_inj. rewrite <- Hformat. apply Hall. }
  exists header. split; [exact Hmessage | split; [exact Hall|]].
  intros other Hother. rewrite Hall, Hmessage in Hother.
  apply Ok_inj in Hother. exact (String.app_inj _ _ _ Hother).
Qed.

Lemma format_message_appends_summary_witness :
  ∃ header,
    section6_template "widgets" "7" "https://github.com/acme/widgets/pull/7"
      "Fix bug" "fix-bug" "main" "Fixed the widget crash"
    = header ++ "Fixed the widget crash"
    ∧ (∀ other, format_message scenario_pr other = Ok (header ++ other))
    ∧ (∀ other,
         format_message scenario_pr other
         = Ok (section6_template "widgets" "7"
                 "https://github.com/acme/widgets/pull/7" "Fix bug" "fix-bug"
                 "main" "Fixed the widget crash") →
         other = "Fixed the widget crash").
Proof.
  apply (format_message_appends_summary scenario_pr "Fixed the widget crash").
  vm_compute. reflexivity.
Defined.

Lemma str_split_line (piece rest : string) :
  free_of "010"%char piece = true →
  str_split "010"%char (piece ++ LF ++ rest)
  = piece :: str_split "010"%char rest.
Proof. exact (str_split_piece "010"%char piece rest). Qed.

(** X7.  When no field contains a line feed, cutting the message at the
    line feeds gives back the four header lines, followed by the lines
    of [>summary]: only the first line of a summary of several lines
    carries the quote mark. *)
Theorem format_message_lines
    (pr : gmap string pyval) (summary_ : string)
    (number title_ head base : pyval) (url repo_name : string) :
  pr !! "number" = Some number →
  pr !! "title" = Some title_ →
  pr !! "url" = Some (VStr url) →
  pr !! "headRefName" = Some head →
  pr !! "baseRefName" = Some base →
  str_split "/"%char url !! 4%nat = Some repo_name →
  free_of "010"%char (py_str number) = true →
  free_of "010"%char (py_str title_) = true →
  free_of "010"%char url = true →
  free_of "010"%char (py_str head) = true →
  free_of "010"%char (py_str base) = true →
  ∃ message,
    format_message pr summary_ = Ok message
    ∧ str_split "010"%char message
      = ("📂 *Repo*: " ++ repo_name)
        :: ("✅ *PR #" ++ py_str number ++ " Merged* — <" ++ url ++ "|"
            ++ py_str title_ ++ ">")
        :: ("🔀 *Branch*: `" ++ py_str head ++ "` → `" ++ py_str base ++ "`")
        :: "📝 *Summary*:"
        :: str_split "010"%char (">" ++ summary_)
    ∧ (free_of "010"%char summary_ = true →
       length (str_split "010"%char message) = 5%nat).
Proof.
  intros Hn Ht Hu Hh Hb Hrepo Fn Ft Fu Fh Fb.
  assert (Fr : free_of "010"%char repo_name = true).
  { pose proof (str_split_free_pieces "010"%char "/"%char url Fu) as Hall.
    rewrite Forall_lookup in Hall. exact (Hall 4%nat repo_name Hrepo). }
  eexists. split; [|split].
  - exact (format_message_fields pr summary_ number title_ head base url
             repo_name Hn Ht Hu Hh Hb Hrepo).
  - rewrite !str_split_line; [reflexivity|..];
      rewrite ?free_of_app, ?Fr, ?Fn, ?Ft, ?Fu, ?Fh, ?Fb; reflexivity.
  - intros Fs.
    rewrite !str_split_line, (str_split_free _ (">" ++ summary_));
      [reflexivity|..];
      rewrite ?free_of_app, ?Fr, ?Fn, ?Ft, ?Fu, ?Fh, ?Fb, ?Fs; reflexivity.
Qed.

Lemma format_message_lines_witness :
  ∃ message,
    format_message scenario_pr ("Fixed the crash" ++ LF ++ "Added a test")
    = Ok message
    ∧ str_split "010"%char message
      = ("📂 *Repo*: " ++ "widgets")
        :: ("✅ *PR #" ++ py_str (VInt 7) ++ " Merged* — <"
            ++ "https://github.com/acme/widgets/pull/7" ++ "|"
            ++ py_str (VStr "Fix bug") ++ ">")
        :: ("🔀 *Branch*: `" ++ py_str (VStr "fix-bug") ++ "` → `"
            ++ py_str (VStr "main") ++ "`")
        :: "📝 *Summary*:"
        :: str_split "010"%char
             (">" ++ "Fixed the crash" ++ LF ++ "Added a test")
    ∧ (free_of "010"%char ("Fixed the crash" ++ LF ++ "Added a test") = true →
       length (str_split "010"%char message) = 5%nat).
Proof.
  apply (format_message_lines scenario_pr _ (VInt 7) (VStr "Fix bug")
           (VStr "fix-bug") (VStr "main")
           "https://github.com/acme/widgets/pull/7" "widgets");
    reflexivity.
Defined.

(** ** What the publisher does and does not do *)

(** X8.  The publisher returns true only after a response with status
    200 to a request the constructor accepted, and in that case its one
    action is that request: it writes nothing. *)
Theorem post_to_slack_true_iff (w : World) (url message : string) :
  outcome_of (post_to_slack w url message) = Done true
  ↔ request_check w url = None
    ∧ urlopen w (slack_request w url message) = Ok 200%Z.
Proof.
  split.
  - destruct (request_check w url) as [e|] eqn:Hcheck.
    + rewrite (post_to_slack_rejected w url message e Hcheck). discriminate.
    + rewrite (post_to_slack_accepted w url message Hcheck).
      destruct (urlopen w _) as [status|[]]; try discriminate.
      destruct (Z.eqb_spec status 200) as [->|]; [tauto|discriminate].
  - intros [Hcheck Hresp].
    rewrite (post_to_slack_accepted w url message Hcheck), Hresp.
    reflexivity.
Qed.

(** X9.  Whatever the world, the publisher runs no command, reads no
    variable, prints nothing to the output, never exits the process and
    sends at most one request.  When it returns false it has written
    exactly one line to the error stream, and when it returns true or
    lets an exception through it has written none. *)
Theorem post_to_slack_footprint (w : World) (url message : string) :
  let r := post_to_slack w url message in
  commands (trace_of r) = []
  ∧ env_reads (trace_of r) = []
  ∧ written Stdout (trace_of r) = []
  ∧ (length (requests (trace_of r)) ≤ 1)%nat
  ∧ (∀ code, outcome_of r ≠ Exited code)
  ∧ (outcome_of r = Done false → length (written Stderr (trace_of r)) = 1%nat)
  ∧ (outcome_of r ≠ Done false → written Stderr (trace_of r) = []).
Proof.
  intros r. subst r.
  destruct (request_check w url) as [e|] eqn:Hcheck.
  - rewrite (post_to_slack_rejected w url message e Hcheck).
    repeat split; try (cbn; lia); discriminate.
  - rewrite (post_to_slack_accepted w url message Hcheck).
    destruct (urlopen w _) as [status|[]];
      try destruct (status =? 200)%Z;
      repeat split; try (cbn; lia); try discriminate;
      intros H; contradiction H; reflexivity.
Qed.

(** ** The runs of [main] *)

(** Either the address resolves or both sources are unusable. *)
Lemma resolves_or_not (w : World) (args : Args) :
  (∃ url tr, resolves w args url tr)
  ∨ (truthy (webhook_url args) = false
     ∧ truthy (environ w !! "SLACK_WEBHOOK_URL") = false).
Proof.
  destruct (webhook_url args) as [[|c u]|] eqn:Harg.
  - destruct (environ w !! "SLACK_WEBHOOK_URL") as [[|c v]|] eqn:Henv.
    + right. split; reflexivity.
    + left. exists (String c v), [EvGetenv "SLACK_WEBHOOK_URL"].
      apply from_environment; [now rewrite Harg | exact Henv].
    + right. split; reflexivity.
  - left. exists (String c u), []. apply from_argument. exact Harg.
  - destruct (environ w !! "SLACK_WEBHOOK_URL") as [[|c v]|] eqn:Henv.
    + right. split; reflexivity.
    + left. exists (String c v), [EvGetenv "SLACK_WEBHOOK_URL"].
      apply from_environment; [now rewrite Harg | exact Henv].
    + right. split; reflexivity.
Qed.

(** The run of the script follows one of the rules. *)
Lemma main_runs (w : World) (args : Args) : runs w args (main w args).
Proof.
  destruct (subprocess_run w (fetch_cmd (pr_number args) (repo args)))
    as [proc|e] eqn:Hrun.
  2:{ unfold main, fetch_pr. rewrite Hrun. now apply runs_fetch_raised. }
  destruct (Z.eq_dec (returncode proc) 0%Z) as [Hcode|Hcode].
  2:{ unfold main. rewrite (fetch_pr_failed w _ _ proc Hrun Hcode).
      now apply (runs_fetch_failed w args proc). }
  destruct (json_loads w (stdout proc)) as [pr|e] eqn:Hjson.
  2:{ unfold main, fetch_pr. rewrite Hrun. script. rewrite Hcode, Hjson.
      now apply (runs_parse_raised w args proc). }
  assert (Hfetched : fetched w args pr) by (exists proc; auto).
  destruct (format_message pr (summary args)) as [message|e] eqn:Hformat.
  2:{ enter_main Hfetched Hformat. now apply (runs_format_raised w args pr). }
  destruct (dry_run args) eqn:Hdry.
  { enter_main Hfetched Hformat. rewrite Hdry.
    now apply (runs_preview w args pr message). }
  destruct (resolves_or_not w args) as [(url & tr & Hres) | [Harg Henv]].
  2:{ enter_main Hfetched Hformat. rewrite Hdry. unfold resolve_webhook_url.
      rewrite Harg. script. rewrite Henv.
      now apply (runs_unconfigured w args pr message). }
  rewrite (main_resolved w args pr message url tr Hdry Hfetched Hformat Hres).
  destruct (request_check w url) as [e|] eqn:Hcheck.
  { rewrite (post_to_slack_rejected w url message e Hcheck). flatten.
    now apply (runs_request_raised w args pr message url tr e). }
  rewrite (post_to_slack_accepted w url message Hcheck).
  destruct (urlopen w (slack_request w url message)) as [status|e] eqn:Hresp.
  - destruct (Z.eqb_spec status 200) as [->|Hstatus].
    + destruct (format_message_inv pr _ _ Hformat) as (_ & [number Hn] & _).
      script. unfold getitem. rewrite Hn. flatten.
      now apply (runs_posted w args pr message url tr number).
    + flatten.
      apply (runs_refused w args pr message url _ tr); try assumption.
      rewrite Hresp. now constructor.
  - destruct e; flatten;
      try (apply (runs_transport_raised w args pr message url tr);
           try assumption; exact I);
      (apply (runs_refused w args pr message url _ tr); try assumption;
       rewrite Hresp; constructor).
Qed.

(** Each rule describes the run of the script. *)
Lemma runs_main (w : World) (args : Args) (m : M unit) :
  runs w args m → m = main w args.
Proof.
  intros Hruns.
  destruct Hruns as
    [ e Hrun | proc Hrun Hcode | proc e Hrun Hcode Hjson
    | pr e Hfetched Hformat | pr message Hfetched Hformat Hdry
    | pr message Hfetched Hformat Hdry Harg Henv
    | pr message url tr e Hfetched Hformat Hdry Hres Hcheck
    | pr message url tr e Hfetched Hformat Hdry Hres Hcheck Hresp Hun
    | pr message url tr number Hfetched Hformat Hdry Hres Hcheck Hresp Hn
    | pr message url log tr Hfetched Hformat Hdry Hres Hcheck Hlog ].
  - unfold main, fetch_pr. now rewrite Hrun.
  - unfold main. now rewrite (fetch_pr_failed w _ _ proc Hrun Hcode).
  - unfold main, fetch_pr. rewrite Hrun. script. now rewrite Hcode, Hjson.
  - now enter_main Hfetched Hformat.
  - enter_main Hfetched Hformat. now rewrite Hdry.
  - enter_main Hfetched Hformat. rewrite Hdry. unfold resolve_webhook_url.
    rewrite Harg. script. now rewrite Henv.
  - rewrite (main_resolved w args pr message url tr Hdry Hfetched Hformat Hres).
    rewrite (post_to_slack_rejected w url message e Hcheck). now flatten.
  - rewrite (main_resolved w args pr message url tr Hdry Hfetched Hformat Hres).
    rewrite (post_to_slack_accepted w url message Hcheck), Hresp.
    destruct e; try contradiction; now flatten.
  - rewrite (main_resolved w args pr message url tr Hdry Hfetched Hformat Hres).
    rewrite (post_to_slack_accepted w url message Hcheck), Hresp.
    script. unfold getitem. rewrite Hn. now flatten.
  - rewrite (main_resolved w args pr message url tr Hdry Hfetched Hformat Hres).
    rewrite (post_to_slack_accepted w url message Hcheck).
    destruct Hlog as [status Hstatus | code reason | reason].
    + apply Z.eqb_neq in Hstatus. rewrite Hstatus. now flatten.
    + now flatten.
    + now flatten.
Qed.

(** Case analysis on the way the script runs; the reads of the
    resolution become concrete. *)
Ltac by_runs w args :=
  let Hruns := fresh "Hruns" in
  let m := fresh "m" in
  pose proof (main_runs w args) as Hruns;
  remember (main w args) as m;
  destruct Hruns;
  repeat match goal with
         | H : resolves _ _ _ _ |- _ => inversion H; subst; clear H
         end.

(** From a parsed command line on, the script starts the fetch command
    exactly once, sends at most one request, reads at most the one
    environment variable, and ends with status 0 or 1. *)
Lemma main_effect_bounds (w : World) (args : Args) :
  commands (trace_of (main w args))
  = [fetch_cmd (pr_number args) (repo args)]
  ∧ (length (requests (trace_of (main w args))) ≤ 1)%nat
  ∧ (env_reads (trace_of (main w args)) = []
     ∨ env_reads (trace_of (main w args)) = ["SLACK_WEBHOOK_URL"])
  ∧ (exit_code (outcome_of (main w args)) = 0%Z
     ∨ exit_code (outcome_of (main w args)) = 1%Z).
Proof.
  by_runs w args; cbn; repeat split; auto.
Qed.

(** From a parsed command line on, the script writes to the error
    stream exactly when it ends through [sys.exit], with status 1. *)
Lemma main_exits_with_report (w : World) (args : Args) :
  (written Stderr (trace_of (main w args)) ≠ []
   ↔ ∃ code, outcome_of (main w args) = Exited code)
  ∧ (∀ code, outcome_of (main w args) = Exited code → code = 1%Z).
Proof.
  by_runs w args; cbn; (split; [split|]).
  all: try solve [intros code Hexit; discriminate Hexit].
  all: try solve [intros code Hexit; injection Hexit as Hcode';
                  now rewrite <- Hcode'].
  all: try solve [intros [code Hexit]; discriminate Hexit].
  all: try solve [intros Hwritten; now contradiction Hwritten].
  all: try solve [intros _; eexists; reflexivity].
  all: intros _; discriminate.
Qed.

(** From a parsed command line on, the script prints to the output only
    once the record is fetched and formatted. *)
Lemma main_prints_after_format (w : World) (args : Args) :
  written Stdout (trace_of (main w args)) ≠ [] →
  ∃ pr message,
    fetched w args pr ∧ format_message pr (summary args) = Ok message.
Proof.
  by_runs w args; cbn; intros Hprinted; try (now contradiction Hprinted);
    eauto.
Qed.

(** From a parsed command line without [--dry-run] on, status 0 means a
    response with status 200. *)
Lemma main_success_iff_200 (w : World) (args : Args) :
  dry_run args = false →
  (exit_code (outcome_of (main w args)) = 0%Z
   ↔ ∃ pr message url tr,
       fetched w args pr
       ∧ format_message pr (summary args) = Ok message
       ∧ resolves w args url tr
       ∧ request_check w url = None
       ∧ urlopen w (slack_request w url message) = Ok 200%Z)
  ∧ (exit_code (outcome_of (main w args)) ≠ 0%Z
     → exit_code (outcome_of (main w args)) = 1%Z).
Proof.
  intros Hdry. split; [split|].
  - pose proof (main_runs w args) as Hruns.
    remember (main w args) as m.
    destruct Hruns; cbn; try discriminate; [congruence|].
    intros _. eauto 10.
  - intros (pr & message & url & tr & Hfetched & Hformat & Hres & Hcheck & Hresp).
    destruct (format_message_inv pr _ _ Hformat) as (_ & [number Hn] & _).
    rewrite <- (runs_main w args _
                  (runs_posted w args pr message url tr number
                     Hfetched Hformat Hdry Hres Hcheck Hresp Hn)).
    reflexivity.
  - by_runs w args; cbn; intros Hne; try reflexivity; now contradiction Hne.
Qed.

(** From a parsed command line with [--dry-run] on, status 0 means a
    record the formatter accepts. *)
Lemma dry_run_success_iff (w : World) (args : Args) :
  dry_run args = true →
  exit_code (outcome_of (main w args)) = 0%Z
  ↔ ∃ pr, fetched w args pr ∧ well_formed pr.
Proof.
  intros Hdry. split.
  - pose proof (main_runs w args) as Hruns.
    remember (main w args) as m.
    destruct Hruns as
      [ | | | | pr message Hfetched Hformat _ | | | | | ];
      cbn; try discriminate; try congruence.
    intros _. exists pr. split; [assumption|].
    exact (format_message_inv pr _ _ Hformat).
  - intros (pr & Hfetched & Hwf).
    destruct (format_message_well_formed pr (summary args) Hwf)
      as [message Hformat].
    rewrite <- (runs_main w args _
                  (runs_preview w args pr message Hfetched Hformat Hdry)).
    reflexivity.
Qed.

(** X16.  When the publisher lets an exception through, so does the
    script: the run ends there, with neither the failure notice nor the
    copy of the message, and nothing written to either stream. *)
Theorem main_publisher_exception
    (w : World) (args : Args) (pr : gmap string pyval)
    (message url : string) (tr : list event) (e : exn) :
  dry_run args = false →
  fetched w args pr →
  format_message pr (summary args) = Ok message →
  resolves w args url tr →
  outcome_of (post_to_slack w url message) = Raised e →
  outcome_of (main w args) = Raised e
  ∧ written Stdout (trace_of (main w args)) = []
  ∧ written Stderr (trace_of (main w args)) = [].
Proof.
  intros Hdry Hfetched Hformat Hres Hraised.
  rewrite (main_resolved w args pr message url tr Hdry Hfetched Hformat Hres).
  destruct (request_check w url) as [e'|] eqn:Hcheck.
  - rewrite (post_to_slack_rejected w url message e' Hcheck) in Hraised |- *.
    injection Hraised as ->.
    inversion Hres; subst; repeat split.
  - rewrite (post_to_slack_accepted w url message Hcheck) in Hraised |- *.
    destruct (urlopen w (slack_request w url message)) as [status|[]];
      try destruct (status =? 200)%Z; try discriminate Hraised;
      injection Hraised as <-;
      inversion Hres; subst; repeat split.
Qed.

Lemma main_publisher_exception_witness :
  let w := scenario_world (mkProc 0 "{...}" "") ∅ (Ok 200%Z) in
  let args := mkArgs 7 "Fixed" None (Some "hooks.example/T") false in
  outcome_of (main w args)
  = Raised (ValueError "unknown url type: 'hooks.example/T'")
  ∧ written Stdout (trace_of (main w args)) = []
  ∧ written Stderr (trace_of (main w args)) = [].
Proof.
  intros w args.
  apply (main_publisher_exception w args scenario_pr
           (section6_template "widgets" "7"
              "https://github.com/acme/widgets/pull/7" "Fix bug" "fix-bug"
              "main" "Fixed")
           "hooks.example/T" []).
  - reflexivity.
  - apply scenario_pr_fetched.
  - vm_compute. reflexivity.
  - apply from_argument. reflexivity.
  - vm_compute. reflexivity.
Defined.

Lemma resolves_with_dry_run (w : World) (args : Args) (b : bool)
    (url : string) (tr : list event) :
  resolves w args url tr → resolves w (with_dry_run args b) url tr.
Proof.
  intros Hres. inversion Hres as [c u Harg | c u Harg Henv]; subst.
  - now apply from_argument.
  - now apply from_environment.
Qed.

(** X17.  A dry run previews what the real run sends: with the same
    arguments and the same world, the text printed between the markers
    of the preview is the text the request of the real run carries. *)
Theorem preview_is_what_is_sent
    (w : World) (args : Args) (pr : gmap string pyval)
    (message url : string) (tr : list event) :
  fetched w args pr →
  format_message pr (summary args) = Ok message →
  resolves w args url tr →
  request_check w url = None →
  written Stdout (trace_of (main w (with_dry_run args true)))
  = [line ("=== DRY RUN — Message preview ===" ++ LF);
     line message;
     line (LF ++ "=== End preview ===")]
  ∧ requests (trace_of (main w (with_dry_run args false)))
    = [mkRequest url (json_dumps_utf8 w {[ "text" := VStr message ]})
         [("Content-Type", "application/json")] "POST"].
Proof.
  intros Hfetched Hformat Hres Hcheck. split.
  - rewrite <- (runs_main w (with_dry_run args true) _
                  (runs_preview w (with_dry_run args true) pr message
                     Hfetched Hformat eq_refl)).
    reflexivity.
  - destruct (main_resolved_trace w (with_dry_run args false) pr message url tr
                eq_refl Hfetched Hformat
                (resolves_with_dry_run w args false url tr Hres))
      as [-> _].
    rewrite (post_to_slack_accepted w url message Hcheck).
    destruct (urlopen w _) as [status|[]];
      try destruct (status =? 200)%Z; reflexivity.
Qed.

Lemma preview_is_what_is_sent_witness :
  let w := scenario_world (mkProc 0 "{...}" "") ∅ (Ok 200%Z) in
  let args := mkArgs 7 "Fixed" None (Some "https://hooks.example/T") false in
  let message :=
    section6_template "widgets" "7" "https://github.com/acme/widgets/pull/7"
      "Fix bug" "fix-bug" "main" "Fixed" in
  written Stdout (trace_of (main w (with_dry_run args true)))
  = [line ("=== DRY RUN — Message preview ===" ++ LF);
     line message;
     line (LF ++ "=== End preview ===")]
  ∧ requests (trace_of (main w (with_dry_run args false)))
    = [mkRequest "https://hooks.example/T"
         (json_dumps_utf8 w {[ "text" := VStr message ]})
         [("Content-Type", "application/json")] "POST"].
Proof.
  intros w args message.
  apply (preview_is_what_is_sent w args scenario_pr message
           "https://hooks.example/T" []).
  - apply scenario_pr_fetched.
  - vm_compute. reflexivity.
  - apply from_argument. reflexivity.
  - reflexivity.
Defined.

(** ** Failures of the fetch stage *)

(** X18.  An exception raised while starting the command, or while
    parsing the output of a command that ended with status 0, is not
    handled: it ends the fetcher and the script after the one command,
    with nothing written and nothing sent, in a dry run or not. *)
Theorem fetch_exception_propagates (w : World) (args : Args) (e : exn) :
  subprocess_run w (fetch_cmd (pr_number args) (repo args)) = Err e
  ∨ (∃ proc,
       subprocess_run w (fetch_cmd (pr_number args) (repo args)) = Ok proc
       ∧ returncode proc = 0%Z
       ∧ json_loads w (stdout proc) = Err e) →
  fetch_pr w (pr_number args) (repo args)
  = (Raised e, [EvRun (fetch_cmd (pr_number args) (repo args))])
  ∧ main w args
    = (Raised e, [EvRun (fetch_cmd (pr_number args) (repo args))]).
Proof.
  intros [Hrun | (proc & Hrun & Hcode & Hjson)].
  - assert (Hfetch : fetch_pr w (pr_number args) (repo args)
                     = (Raised e, [EvRun (fetch_cmd (pr_number args) (repo args))])).
    { unfold fetch_pr. now rewrite Hrun. }
    split; [exact Hfetch|]. unfold main. now rewrite Hfetch.
  - assert (Hfetch : fetch_pr w (pr_number args) (repo args)
                     = (Raised e, [EvRun (fetch_cmd (pr_number args) (repo args))])).
    { unfold fetch_pr. rewrite Hrun. script. now rewrite Hcode, Hjson. }
    split; [exact Hfetch|]. unfold main. now rewrite Hfetch.
Qed.

Lemma fetch_exception_propagates_witness :
  let w := mkWorld (fun _ => Ok (mkProc 0 "not json" ""))
             (fun _ => Err JSONDecodeError) (fun _ => "") ∅
             (fun _ => None) (fun _ => Ok 200%Z) in
  let args := mkArgs 7 "Fixed" None (Some "https://hooks.example/T") false in
  main w args = (Raised JSONDecodeError, [EvRun (fetch_cmd 7 None)]).
Proof.
  intros w args.
  apply (fetch_exception_propagates w args JSONDecodeError).
  right. exists (mkProc 0 "not json" ""). repeat split.
Defined.

(** ** The fetch command *)

(** The decimal text of an integer reads back as the integer. *)
Lemma str_int_round_trip (z : Z) :
  NilZero.int_of_string (str_int z) = Some (Z.to_int z).
Proof.
  unfold str_int. apply NilZero.isi.
  - destruct z as [|p|p]; simpl; try discriminate.
    intros [= Hnil]. now apply DecimalPos.Unsigned.to_uint_nonnil in Hnil.
  - destruct z as [|p|p]; simpl; try discriminate.
    intros [= Hnil]. now apply DecimalPos.Unsigned.to_uint_nonnil in Hnil.
Qed.

Lemma str_int_inj (z z' : Z) : str_int z = str_int z' → z = z'.
Proof.
  intros Heq.
  pose proof (str_int_round_trip z) as Hz.
  rewrite Heq, str_int_round_trip in Hz. injection Hz as Hz.
  now rewrite <- (DecimalZ.of_to z), <- (DecimalZ.of_to z'), Hz.
Qed.

(** X19.  The command line identifies what is fetched: two invocations
    start the same command exactly when they name the same pull request
    and the same repository, an empty [--repo] counting as none. *)
Theorem fetch_cmd_identifies (n n' : Z) (r r' : option string) :
  fetch_cmd n r = fetch_cmd n' r'
  ↔ n = n' ∧ effective_repo r = effective_repo r'.
Proof.
  unfold fetch_cmd, effective_repo. split.
  - intros Hcmd.
    injection Hcmd as Hn Hrepo. apply str_int_inj in Hn.
    split; [exact Hn|].
    destruct r as [[|c u]|], r' as [[|c' u']|]; cbn in *;
      congruence.
  - intros [-> Hrepo].
    destruct r as [[|c u]|], r' as [[|c' u']|]; cbn in *;
      congruence.
Qed.

(** ** [str.strip] and the report of a failed fetch *)

Section Strip.
Variable sp2 : ascii → ascii → bool.
Variable sp3 : ascii → ascii → ascii → bool.

(** What [lstrip_with] removes is white space, and what it leaves does
    not begin with white space. *)
Lemma lstrip_with_spec (n : nat) (s : string) :
  (String.length s ≤ n)%nat →
  (∃ a, s = a ++ lstrip_with sp2 sp3 s ∧ blank_with sp2 sp3 a)
  ∧ starts_blank sp2 sp3 (lstrip_with sp2 sp3 s) = false.
Proof.
  revert s. induction n as [|n IH]; intros s Hlen.
  - destruct s; [|simpl in Hlen; lia].
    split; [exists ""; split; [reflexivity|constructor] | reflexivity].
  - destruct s as [|c1 r1].
    { split; [exists ""; split; [reflexivity|constructor] | reflexivity]. }
    simpl in Hlen. simpl.
    destruct (is_space1 c1) eqn:H1.
    { destruct (IH r1) as [(a & Ha & Hblank) Hstart]; [lia|].
      split; [|exact Hstart].
      exists (String c1 a). split; [|now constructor].
      change (String c1 r1 = String c1 (a ++ lstrip_with sp2 sp3 r1)).
      now rewrite <- Ha. }
    destruct r1 as [|c2 r2].
    { split; [exists ""; split; [reflexivity|constructor]|].
      simpl. exact H1. }
    simpl in Hlen.
    destruct (sp2 c1 c2) eqn:H2.
    { destruct (IH r2) as [(a & Ha & Hblank) Hstart]; [lia|].
      split; [|exact Hstart].
      exists (String c1 (String c2 a)). split; [|now constructor].
      change (String c1 (String c2 r2)
              = String c1 (String c2 (a ++ lstrip_with sp2 sp3 r2))).
      now rewrite <- Ha. }
    destruct r2 as [|c3 r3].
    { split; [exists ""; split; [reflexivity|constructor]|].
      simpl. now rewrite H1, H2. }
    simpl in Hlen.
    destruct (sp3 c1 c2 c3) eqn:H3.
    { destruct (IH r3) as [(a & Ha & Hblank) Hstart]; [lia|].
      split; [|exact Hstart].
      exists (String c1 (String c2 (String c3 a))).
      split; [|now constructor].
      change (String c1 (String c2 (String c3 r3))
              = String c1 (String c2 (String c3
                  (a ++ lstrip_with sp2 sp3 r3)))).
      now rewrite <- Ha. }
    split; [exists ""; split; [reflexivity|constructor]|].
    simpl. now rewrite H1, H2, H3.
Qed.

Lemma blank_with_app (a b : string) :
  blank_with sp2 sp3 a → blank_with sp2 sp3 b → blank_with sp2 sp3 (a ++ b).
Proof.
  intros Ha Hb. induction Ha.
  - exact Hb.
  - now apply blank_one.
  - now apply blank_two.
  - now apply blank_three.
Qed.
End Strip.

Lemma append_nil_r (s : string) : s ++ "" = s.
Proof.
  induction s as [|c s IH]; [reflexivity|].
  change (String c (s ++ "") = String c s). now rewrite IH.
Qed.

Lemma rev_app_append (s1 s2 : string) :
  String.rev_app s1 s2 = String.rev s1 ++ s2.
Proof.
  unfold String.rev. revert s2.
  induction s1 as [|c s1 IH]; intros s2; [reflexivity|].
  simpl. rewrite (IH (String c s2)), (IH (String c "")).
  now rewrite append_assoc.
Qed.

Lemma rev_cons (c : ascii) (s : string) :
  String.rev (String c s) = String.rev s ++ String c "".
Proof. unfold String.rev at 1. simpl. apply rev_app_append. Qed.

Lemma rev_append (a b : string) :
  String.rev (a ++ b) = String.rev b ++ String.rev a.
Proof.
  induction a as [|c a IH].
  - change (String.rev b = String.rev b ++ ""). now rewrite append_nil_r.
  - change (String.rev (String c (a ++ b))
            = String.rev b ++ String.rev (String c a)).
    now rewrite !rev_cons, IH, append_assoc.
Qed.

Lemma rev_involutive (s : string) : String.rev (String.rev s) = s.
Proof.
  induction s as [|c s IH]; [reflexivity|].
  rewrite rev_cons, rev_append, IH. reflexivity.
Qed.

(** White space read backwards is white space. *)
Lemma blank_with_rev (sp2 : ascii → ascii → bool)
    (sp3 : ascii → ascii → ascii → bool) (x : string) :
  blank_with (fun a b => sp2 b a) (fun a b c => sp3 c b a) x →
  blank_with sp2 sp3 (String.rev x).
Proof.
  induction 1 as [|c1 s H1 _ IH|c1 c2 s H2 _ IH|c1 c2 c3 s H3 _ IH].
  - constructor.
  - rewrite rev_cons. apply blank_with_app; [exact IH|].
    apply blank_one; [exact H1 | constructor].
  - rewrite !rev_cons, append_assoc. apply blank_with_app; [exact IH|].
    apply blank_two; [exact H2 | constructor].
  - rewrite !rev_cons, !append_assoc. apply blank_with_app; [exact IH|].
    apply blank_three; [exact H3 | constructor].
Qed.

(** A text that does not begin with white space has no prefix that
    does. *)
Lemma starts_blank_prefix (sp2 : ascii → ascii → bool)
    (sp3 : ascii → ascii → ascii → bool) (p q : string) :
  starts_blank sp2 sp3 (p ++ q) = false → starts_blank sp2 sp3 p = false.
Proof.
  destruct p as [|c1 [|c2 [|c3 p]]]; [reflexivity|..];
    destruct q as [|d1 [|d2 q]];
    cbv beta iota delta [String.append starts_blank];
    repeat match goal with
           | |- context [is_space1 ?c] => destruct (is_space1 c)
           | |- context [sp2 ?a ?b] => destruct (sp2 a b)
           | |- context [sp3 ?a ?b ?c] => destruct (sp3 a b c)
           end; cbn; congruence.
Qed.

(** The two ends [strip] removes are white space, and it removes all
    of it. *)
Lemma strip_spec (s : string) :
  (∃ a b, s = a ++ strip s ++ b ∧ blank a ∧ blank b)
  ∧ starts_blank is_space2 is_space3 (strip s) = false
  ∧ ends_blank (strip s) = false.
Proof.
  unfold strip, rstrip, ends_blank, blank.
  destruct (lstrip_with_spec is_space2 is_space3 _ s (le_n _))
    as [(a & Ha & Hblank_a) Hstart].
  fold (lstrip s) in *.
  destruct (lstrip_with_spec (fun a b => is_space2 b a)
              (fun a b c => is_space3 c b a) _
              (String.rev (lstrip s)) (le_n _))
    as [(b & Hb & Hblank_b) Hend].
  set (kept := lstrip_with _ _ (String.rev (lstrip s))) in *.
  assert (Hleft : lstrip s = String.rev kept ++ String.rev b).
  { rewrite <- rev_append, <- Hb. now rewrite rev_involutive. }
  split; [|split].
  - exists a, (String.rev b). split; [|split].
    + now rewrite <- Hleft.
    + exact Hblank_a.
    + now apply blank_with_rev.
  - rewrite Hleft in Hstart. exact (starts_blank_prefix _ _ _ _ Hstart).
  - now rewrite rev_involutive.
Qed.

(** X20.  The line a failed fetch writes to the error stream is the
    prefix [Error fetching PR #N: ] followed by the error output of the
    command with the white space at its two ends removed: all of that
    white space, and nothing else. *)
Theorem fetch_failure_reports_stderr
    (w : World) (n : Z) (r : option string) (proc : CompletedProcess) :
  subprocess_run w (fetch_cmd n r) = Ok proc →
  returncode proc ≠ 0%Z →
  ∃ text before after_,
    stderr proc = before ++ text ++ after_
    ∧ blank before ∧ blank after_
    ∧ starts_blank is_space2 is_space3 text = false
    ∧ ends_blank text = false
    ∧ written Stderr (trace_of (fetch_pr w n r))
      = [line ("Error fetching PR #" ++ str_int n ++ ": " ++ text)].
Proof.
  intros Hrun Hcode.
  destruct (strip_spec (stderr proc))
    as [(before & after_ & Hparts & Hbefore & Hafter) [Hstart Hend]].
  exists (strip (stderr proc)), before, after_.
  rewrite (fetch_pr_failed w n r proc Hrun Hcode).
  repeat split; assumption.
Qed.

Lemma fetch_failure_reports_stderr_witness :
  ∃ text before after_,
    ("  no pull requests found" ++ LF) = before ++ text ++ after_
    ∧ blank before ∧ blank after_
    ∧ starts_blank is_space2 is_space3 text = false
    ∧ ends_blank text = false
    ∧ written Stderr
        (trace_of
           (fetch_pr
              (scenario_world (mkProc 1 "" ("  no pull requests found" ++ LF))
                 ∅ (Ok 200%Z))
              7 None))
      = [line ("Error fetching PR #" ++ str_int 7 ++ ": " ++ text)].
Proof.
  apply (fetch_failure_reports_stderr
           (scenario_world (mkProc 1 "" ("  no pull requests found" ++ LF))
              ∅ (Ok 200%Z))
           7 None (mkProc 1 "" ("  no pull requests found" ++ LF)));
    [reflexivity | simpl; lia].
Defined.

(** ** Recovery after a failed send *)

(** X21.  When the publisher returns false after sending, the text the
    script then prints to the output for the operator is the text the
    request carried, after the heading [Message was:], and the run ends
    with status 1. *)
Theorem failed_send_echoes_request
    (w : World) (args : Args) (pr : gmap string pyval)
    (message url : string) (tr : list event) :
  dry_run args = false →
  fetched w args pr →
  format_message pr (summary args) = Ok message →
  resolves w args url tr →
  outcome_of (post_to_slack w url message) = Done false →
  requests (trace_of (main w args))
  = [mkRequest url (json_dumps_utf8 w {[ "text" := VStr message ]})
       [("Content-Type", "application/json")] "POST"]
  ∧ written Stdout (trace_of (main w args))
    = [line (LF ++ "Message was:" ++ LF); line message]
  ∧ outcome_of (main w args) = Exited 1.
Proof.
  intros Hdry Hfetched Hformat Hres Hfalse.
  destruct (request_check w url) as [e|] eqn:Hcheck.
  { rewrite (post_to_slack_rejected w url message e Hcheck) in Hfalse.
    discriminate. }
  rewrite (post_to_slack_accepted w url message Hcheck) in Hfalse.
  assert (Hlog : ∃ log, refusal (urlopen w (slack_request w url message)) log).
  { revert Hfalse.
    destruct (urlopen w (slack_request w url message)) as [status|[]];
      intros Hfalse;
      try discriminate Hfalse; try (eexists; constructor; fail).
    destruct (Z.eq_dec status 200%Z) as [Hstatus|Hstatus].
    - rewrite Hstatus in Hfalse. discriminate Hfalse.
    - eexists. now constructor. }
  destruct Hlog as [log Hlog].
  rewrite <- (runs_main w args _
                (runs_refused w args pr message url log tr
                   Hfetched Hformat Hdry Hres Hcheck Hlog)).
  inversion Hres; subst; repeat split.
Qed.

Lemma failed_send_echoes_request_witness :
  let w := scenario_world (mkProc 0 "{...}" "") ∅
             (Err (URLError "[Errno 111] Connection refused")) in
  let args := mkArgs 7 "Fixed" None (Some "https://hooks.example/T") false in
  let message :=
    section6_template "widgets" "7" "https://github.com/acme/widgets/pull/7"
      "Fix bug" "fix-bug" "main" "Fixed" in
  requests (trace_of (main w args))
  = [mkRequest "https://hooks.example/T"
       (json_dumps_utf8 w {[ "text" := VStr message ]})
       [("Content-Type", "application/json")] "POST"]
  ∧ written Stdout (trace_of (main w args))
    = [line (LF ++ "Message was:" ++ LF); line message]
  ∧ outcome_of (main w args) = Exited 1.
Proof.
  intros w args message.
  apply (failed_send_echoes_request w args scenario_pr message
           "https://hooks.example/T" []).
  - reflexivity.
  - apply scenario_pr_fetched.
  - vm_compute. reflexivity.
  - apply from_argument. reflexivity.
  - vm_compute. reflexivity.
Defined.

(** ** Splitting and joining *)

(** X22.  Splitting loses nothing: the pieces of an address, joined
    again by slashes, are the address, and no piece contains a slash. *)
Theorem str_split_join (sep : ascii) (s : string) :
  String.concat (String sep "") (str_split sep s) = s
  ∧ Forall (fun piece => free_of sep piece = true) (str_split sep s).
Proof.
  induction s as [|c s [IHjoin IHfree]].
  - split; [reflexivity | repeat constructor].
  - simpl. destruct (Ascii.eqb_spec c sep) as [->|Hne].
    + split.
      * destruct (str_split sep s) as [|piece pieces] eqn:Hsplit.
        { now apply str_split_nonempty in Hsplit. }
        change (String sep (String.concat (String sep "") (piece :: pieces))
                = String sep s).
        now rewrite IHjoin.
      * constructor; [reflexivity | exact IHfree].
    + destruct (str_split sep s) as [|piece pieces] eqn:Hsplit.
      { now apply str_split_nonempty in Hsplit. }
      apply Ascii.eqb_neq in Hne.
      apply Forall_cons in IHfree as [Hpiece Hpieces].
      split.
      * rewrite <- IHjoin. destruct pieces; reflexivity.
      * constructor; [|assumption]. simpl. now rewrite Hne, Hpiece.
Qed.

(** ** The script from the command line *)

Section CommandLine.
Variable argparse : list string → parse_result.
Variable w : World.
Variable argv : list string.

Lemma script_main_parsed (args : Args) :
  argparse argv = Parsed args → script_main argparse w argv = main w args.
Proof.
  intros Hparse. unfold script_main, parse_args. rewrite Hparse.
  script. apply after_nil.
Qed.

Lemma script_main_usage (usage message : string) :
  argparse argv = UsageError usage message →
  script_main argparse w argv
  = (Exited 2, [EvPrint Stderr usage; EvPrint Stderr message]).
Proof.
  intros Hparse. unfold script_main, parse_args. now rewrite Hparse.
Qed.

Lemma script_main_help (help : string) :
  argparse argv = HelpShown help →
  script_main argparse w argv = (Exited 0, [EvPrint Stdout help]).
Proof.
  intros Hparse. unfold script_main, parse_args. now rewrite Hparse.
Qed.

(** X11.  Whatever the command line and the world, the script starts at
    most one command, sends at most one request, reads at most the one
    environment variable and ends with status 0, 1 or 2.  Once the
    command line is parsed it starts the fetch command exactly once;
    on a usage error or a request for help it starts no command, sends
    nothing and reads nothing. *)
Theorem script_effect_bounds :
  let r := script_main argparse w argv in
  (length (commands (trace_of r)) ≤ 1)%nat
  ∧ (length (requests (trace_of r)) ≤ 1)%nat
  ∧ (env_reads (trace_of r) = []
     ∨ env_reads (trace_of r) = ["SLACK_WEBHOOK_URL"])
  ∧ (exit_code (outcome_of r) = 0%Z ∨ exit_code (outcome_of r) = 1%Z
     ∨ exit_code (outcome_of r) = 2%Z)
  ∧ match argparse argv with
    | Parsed args =>
        commands (trace_of r) = [fetch_cmd (pr_number args) (repo args)]
    | _ =>
        commands (trace_of r) = [] ∧ requests (trace_of r) = []
        ∧ env_reads (trace_of r) = []
    end.
Proof.
  intros r. subst r.
  destruct (argparse argv) as [args|usage message|help] eqn:Hparse.
  - rewrite (script_main_parsed args Hparse).
    destruct (main_effect_bounds w args) as (Hcmd & Hreq & Henv & Hexit).
    rewrite Hcmd. repeat split; auto. tauto.
  - rewrite (script_main_usage usage message Hparse).
    cbn. repeat split; auto.
  - rewrite (script_main_help help Hparse).
    cbn. repeat split; auto.
Qed.

(** X12.  The script writes to the error stream exactly when it ends
    through [sys.exit] with a non-zero status: 2 for a usage error, 1
    for a failure of its own after the command line is parsed.  An
    exception that goes through is not reported by the script, and the
    only exit with status 0 is the one of the help. *)
Theorem script_exits_with_report :
  let r := script_main argparse w argv in
  (written Stderr (trace_of r) ≠ []
   ↔ ∃ code, outcome_of r = Exited code ∧ code ≠ 0%Z)
  ∧ (∀ code, outcome_of r = Exited code →
       match argparse argv with
       | Parsed _ => code = 1%Z
       | UsageError _ _ => code = 2%Z
       | HelpShown _ => code = 0%Z
       end).
Proof.
  intros r. subst r.
  destruct (argparse argv) as [args|usage message|help] eqn:Hparse.
  - rewrite (script_main_parsed args Hparse).
    destruct (main_exits_with_report w args) as [Hiff Hone].
    split; [|exact Hone]. rewrite Hiff. split.
    + intros [code Hexit]. exists code. split; [exact Hexit|].
      rewrite (Hone code Hexit). discriminate.
    + intros (code & Hexit & _). eauto.
  - rewrite (script_main_usage usage message Hparse). cbn. split.
    + split; [intros _; exists 2%Z; split; [reflexivity|discriminate]
             | intros _; discriminate].
    + now intros code [= <-].
  - rewrite (script_main_help help Hparse). cbn. split.
    + split; [intros Hwritten; now contradiction Hwritten|].
      intros (code & [= <-] & Hne). now contradiction Hne.
    + now intros code [= <-].
Qed.

(** X13.  The script prints to the output only when it shows the help,
    or once the command line is parsed and the record fetched and
    formatted. *)
Theorem script_prints_after_format :
  written Stdout (trace_of (script_main argparse w argv)) ≠ [] →
  (∃ help, argparse argv = HelpShown help)
  ∨ (∃ args pr message,
       argparse argv = Parsed args
       ∧ fetched w args pr
       ∧ format_message pr (summary args) = Ok message).
Proof.
  destruct (argparse argv) as [args|usage message|help] eqn:Hparse.
  - rewrite (script_main_parsed args Hparse). intros Hprinted.
    destruct (main_prints_after_format w args Hprinted)
      as (pr & message & Hfetched & Hformat).
    right. exists args, pr, message. auto.
  - rewrite (script_main_usage usage message Hparse). cbn.
    intros Hprinted. now contradiction Hprinted.
  - intros _. left. eauto.
Qed.

(** X14.  The script ends with status 0 in three cases only: the help
    was asked for; or the command line is parsed with [--dry-run] and
    the fetch returns a record the formatter accepts; or it is parsed
    without [--dry-run], the record is fetched and formatted, the
    address resolved and accepted, and the response has status 200.
    It ends with status 2 exactly on a usage error. *)
Theorem script_success_iff :
  let r := script_main argparse w argv in
  (exit_code (outcome_of r) = 0%Z
   ↔ (∃ help, argparse argv = HelpShown help)
     ∨ (∃ args pr,
          argparse argv = Parsed args ∧ dry_run args = true
          ∧ fetched w args pr ∧ well_formed pr)
     ∨ (∃ args pr message url tr,
          argparse argv = Parsed args ∧ dry_run args = false
          ∧ fetched w args pr
          ∧ format_message pr (summary args) = Ok message
          ∧ resolves w args url tr
          ∧ request_check w url = None
          ∧ urlopen w (slack_request w url message) = Ok 200%Z))
  ∧ (exit_code (outcome_of r) = 2%Z
     ↔ ∃ usage message, argparse argv = UsageError usage message).
Proof.
  intros r. subst r.
  destruct (argparse argv) as [args|usage message|help] eqn:Hparse.
  - rewrite (script_main_parsed args Hparse). split.
    + destruct (dry_run args) eqn:Hdry.
      * rewrite (dry_run_success_iff w args Hdry). split.
        -- intros (pr & Hfetched & Hwf). right. left. exists args, pr. auto.
        -- intros [[help [=]] | [(a & pr & [= <-] & _ & Hfetched & Hwf)
                               | (a & pr & m & u & t & [= <-] & Hno & _)]];
             [eauto | congruence].
      * destruct (main_success_iff_200 w args Hdry) as [Hiff _].
        rewrite Hiff. split.
        -- intros (pr & m & u & t & H). right. right.
           exists args, pr, m, u, t. tauto.
        -- intros [[help [=]] | [(a & pr & [= <-] & Hyes & _)
                               | (a & pr & m & u & t & [= <-] & _ & H)]];
             [congruence | eauto 10].
    + split.
      * destruct (main_effect_bounds w args) as (_ & _ & _ & [Hexit | Hexit]);
          rewrite Hexit; discriminate.
      * intros (usage & message & [=]).
  - rewrite (script_main_usage usage message Hparse). cbn. split.
    + split; [discriminate|].
      intros [[help [=]] | [(a & pr & [=] & _) | (a & pr & m & u & t & [=] & _)]].
    + split; eauto.
  - rewrite (script_main_help help Hparse). cbn. split.
    + split; eauto.
    + split; [discriminate | intros (usage & message & [=])].
Qed.

(** X15.  When the command line is parsed with [--dry-run], the script
    ends with status 0 exactly when the fetch returns a record the
    formatter accepts, and with status 1 otherwise. *)
Theorem script_dry_run_success_iff (args : Args) :
  argparse argv = Parsed args →
  dry_run args = true →
  (exit_code (outcome_of (script_main argparse w argv)) = 0%Z
   ↔ ∃ pr, fetched w args pr ∧ well_formed pr)
  ∧ (exit_code (outcome_of (script_main argparse w argv)) ≠ 0%Z →
     exit_code (outcome_of (script_main argparse w argv)) = 1%Z).
Proof.
  intros Hparse Hdry. rewrite (script_main_parsed args Hparse). split.
  - exact (dry_run_success_iff w args Hdry).
  - destruct (main_effect_bounds w args) as (_ & _ & _ & [Hexit | Hexit]);
      rewrite Hexit; [intros Hne; now contradiction Hne | reflexivity].
Qed.
End CommandLine.

Lemma script_prints_after_format_witness :
  (∃ help, scenario_parser ["--help"] = HelpShown help)
  ∨ (∃ args pr message,
       scenario_parser ["--help"] = Parsed args
       ∧ fetched (scenario_world (mkProc 0 "{...}" "") ∅ (Ok 200%Z)) args pr
       ∧ format_message pr (summary args) = Ok message).
Proof.
  apply (script_prints_after_format scenario_parser
           (scenario_world (mkProc 0 "{...}" "") ∅ (Ok 200%Z)) ["--help"]).
  vm_compute. discriminate.
Defined.

Lemma script_dry_run_success_iff_witness :
  let w := fetching_world (<["url" := VStr "https://github.com"]> scenario_pr)
             ∅ (Ok 200%Z) in
  let argv := ["7"; "--summary"; "Fixed"; "--dry-run"] in
  exit_code (outcome_of (script_main scenario_parser w argv)) = 1%Z.
Proof.
  intros w argv.
  destruct (script_dry_run_success_iff scenario_parser w argv
              (mkArgs 7 "Fixed" None None true)) as [_ Hother];
    [reflexivity | reflexivity |].
  apply Hother. vm_compute. discriminate.
Defined.

(** The usage error and the help, evaluated. *)
Example scenario_usage_error :
  script_main scenario_parser (scenario_world (mkProc 0 "{...}" "") ∅ (Ok 200%Z))
    ["7"]
  = (Exited 2,
     [EvPrint Stderr "usage: post_to_slack.py [-h] --summary SUMMARY pr_number";
      EvPrint Stderr
        "post_to_slack.py: error: the following arguments are required: --summary"]).
Proof. reflexivity. Qed.

(** The address comes from the argument first, from the variable
    second, and an empty argument counts as none. *)
Example scenario_resolution :
  let env : gmap string string :=
    {[ "SLACK_WEBHOOK_URL" := "https://hooks.example/B" ]} in
  let w := scenario_world (mkProc 0 "{...}" "") env (Ok 200%Z) in
  let sent (u : option string) :=
    map full_url
      (requests (trace_of (main w (mkArgs 7 "Fixed" None u false)))) in
  sent (Some "https://hooks.example/A") = ["https://hooks.example/A"]
  ∧ sent None = ["https://hooks.example/B"]
  ∧ sent (Some "") = ["https://hooks.example/B"].
Proof. vm_compute. repeat split. Qed.
